(** * InstaLooter: iterators over Instagram media pages

    A shallow embedding of [instalooter/pages.py] (Python 3 semantics):
    the page loader generator, the [PageIterator] state machine with its
    length hint, and the profile resolution of [ProfileIterator].

    Conventions of the embedding.
    - A decoded JSON value is a [json]; Python's [None] is [JNull], a dict
      is the association list of its items in insertion order (keys of a
      dict are distinct; lookup returns the first binding).  JSON numbers
      are integers; their true division is the floating-point one of
      Python, on binary64 numbers.
    - A text is a [string] whose characters are the code points below 256.
    - A Python exception is an [exn]; a call that may raise returns a
      [result].
    - The shared [requests.Session] with its headers and its cookie jar,
      the remote end with the answers it gives and the cookies they set,
      the log of requests and the time slept live in a [World] that every
      operation threads.
    - The page loader is a [while True] loop: it is defined by recursion
      on a fuel that bounds the number of iterations, [None] meaning that
      the loop has not come to a [yield] or an exception within the fuel. *)

From Stdlib Require Import ZArith List String Ascii Bool Lia DecimalString.
Import ListNotations.

#[local] Set Warnings "-register-all".

Local Open Scope string_scope.
Local Open Scope Z_scope.

(** ** Python values and exceptions *)

Inductive json : Type :=
| JNull
| JBool (b : bool)
| JNum (n : Z)
| JStr (s : string)
| JArr (items : list json)
| JObj (items : list (string * json)).

Inductive exn : Type :=
| KeyError (key : string)
| TypeError
| IndexError
| ValueError (msg : string)
| AttributeError
| RuntimeError (msg : string)
| StopIteration
| OverflowError
| OtherError (name : string).

Inductive result (A : Type) : Type :=
| Return (a : A)
| Raise (e : exn).
Arguments Return {A} a.
Arguments Raise {A} e.

Definition is_KeyError (e : exn) : bool :=
  match e with KeyError _ => true | _ => false end.

Definition is_TypeError (e : exn) : bool :=
  match e with TypeError => true | _ => false end.

Definition is_StopIteration (e : exn) : bool :=
  match e with StopIteration => true | _ => false end.

Module Py.

(** [bool(v)]: the truth value that [not v] negates. *)
Definition truthy (v : json) : bool :=
  match v with
  | JNull => false
  | JBool b => b
  | JNum n => negb (n =? 0)
  | JStr s => match s with EmptyString => false | String _ _ => true end
  | JArr l => match l with [] => false | _ :: _ => true end
  | JObj m => match m with [] => false | _ :: _ => true end
  end.

Fixpoint lookup (k : string) (m : list (string * json)) : option json :=
  match m with
  | [] => None
  | (k', v) :: m' => if String.eqb k k' then Some v else lookup k m'
  end.

(** [v[k]] for a text key [k]: a dict is searched, anything else
    decoded from JSON refuses a text subscript. *)
Definition getitem (v : json) (k : string) : result json :=
  match v with
  | JObj m => match lookup k m with
              | Some x => Return x
              | None => Raise (KeyError k)
              end
  | _ => Raise TypeError
  end.

(** [v[0]]. *)
Definition getitem0 (v : json) : result json :=
  match v with
  | JArr [] => Raise IndexError
  | JArr (x :: _) => Return x
  | JStr EmptyString => Raise IndexError
  | JStr (String c _) => Return (JStr (String c EmptyString))
  | JObj _ => Raise (KeyError "0")
  | _ => Raise TypeError
  end.

Definition string_of_Z (n : Z) : string :=
  NilZero.string_of_int (Z.to_int n).

Fixpoint join (sep : string) (l : list string) : string :=
  match l with
  | [] => EmptyString
  | [x] => x
  | x :: l' => x ++ sep ++ join sep l'
  end.

Definition hex_digit (n : Z) : ascii :=
  match String.get (Z.to_nat n) "0123456789abcdef" with
  | Some c => c
  | None => "0"%char
  end.

Definition code (c : ascii) : Z := Z.of_nat (nat_of_ascii c).

Definition hex2 (n : Z) : string :=
  String (hex_digit (n / 16)) (String (hex_digit (n mod 16)) EmptyString).

Definition char (c : ascii) : string := String c EmptyString.

Definition dquote : ascii := ascii_of_nat 34.
Definition squote : ascii := ascii_of_nat 39.
Definition backslash : ascii := ascii_of_nat 92.

Fixpoint occurs (c : ascii) (s : string) : bool :=
  match s with
  | EmptyString => false
  | String c' s' => Ascii.eqb c c' || occurs c s'
  end.

(** Characters that [repr] of a text keeps as they are. *)
Definition printable (n : Z) : bool :=
  ((32 <=? n) && (n <? 127)) || ((161 <=? n) && negb (n =? 173)).

Fixpoint repr_chars (quote : ascii) (s : string) : string :=
  match s with
  | EmptyString => EmptyString
  | String c s' =>
      (if Ascii.eqb c quote || Ascii.eqb c backslash
       then String backslash (char c)
       else if code c =? 9 then String backslash "t"
       else if code c =? 10 then String backslash "n"
       else if code c =? 13 then String backslash "r"
       else if printable (code c) then char c
       else String backslash ("x" ++ hex2 (code c)))
      ++ repr_chars quote s'
  end.

Definition repr_str (s : string) : string :=
  let quote := if occurs squote s && negb (occurs dquote s)
               then dquote else squote in
  String quote (repr_chars quote s ++ char quote).

(** [repr(v)] of a value decoded from JSON. *)
Fixpoint repr (v : json) : string :=
  match v with
  | JNull => "None"
  | JBool true => "True"
  | JBool false => "False"
  | JNum n => string_of_Z n
  | JStr s => repr_str s
  | JArr l => "[" ++ join ", " (map repr l) ++ "]"
  | JObj m =>
      "{" ++ join ", " (map (fun kv => repr_str (fst kv) ++ ": " ++ repr (snd kv)) m)
          ++ "}"
  end.

(** [str(v)], which is what a [{}] field of [str.format] inserts. *)
Definition str (v : json) : string :=
  match v with
  | JStr s => s
  | _ => repr v
  end.

(** [a == b] for a text-or-[None] [a] and a decoded value [b]. *)
Definition eq_opt_text (a : option string) (b : json) : bool :=
  match a, b with
  | None, JNull => true
  | Some s, JStr t => String.eqb s t
  | _, _ => false
  end.

(** [text.encode('utf-8')], as a list of bytes. *)
Fixpoint encode_utf8 (s : string) : list Z :=
  match s with
  | EmptyString => []
  | String c s' =>
      let n := code c in
      (if n <? 128 then [n]
       else [Z.lor 192 (Z.shiftr n 6); Z.lor 128 (Z.land n 63)])
      ++ encode_utf8 s'
  end.

(** A finite binary64 number other than a subnormal one: its value is
    [mantissa * 2 ^ exponent], negated when [negative]. *)
Record float : Type := {
  negative : bool;
  mantissa : Z;
  exponent : Z
}.

(** The integer nearest to [n / d], the even one of two that are equally
    near ([0 <= n], [0 < d]). *)
Definition round_half_even (n d : Z) : Z :=
  let q := n / d in
  let r := n mod d in
  if 2 * r <? d then q
  else if d <? 2 * r then q + 1
  else if Z.even q then q else q + 1.

(** [a / b] for integers [a] and [0 < b]: the float nearest to the
    quotient, with 53 bits of mantissa, ties going to the even mantissa;
    [None] stands for the [OverflowError] of a quotient too large for a
    float.  The quotients at hand are 0 or at least [1 / b] in magnitude,
    far above the subnormal range. *)
Definition true_divide (a b : Z) : option float :=
  if a =? 0 then Some {| negative := false; mantissa := 0; exponent := 0 |}
  else
    let n := Z.abs a in
    let k := Z.log2 n - Z.log2 b in
    let s := if (if 0 <=? k then b * 2 ^ k <=? n else b <=? n * 2 ^ (- k))
             then k else k - 1 in
    let e := s - 52 in
    let m := if 0 <=? e then round_half_even n (b * 2 ^ e)
             else round_half_even (n * 2 ^ (- e)) b in
    let me := if m =? 2 ^ 53 then (2 ^ 52, e + 1) else (m, e) in
    if 971 <? snd me then None
    else Some {| negative := a <? 0; mantissa := fst me; exponent := snd me |}.

(** [math.ceil(x)], an integer. *)
Definition ceil (x : float) : Z :=
  if 0 <=? exponent x
  then (if negative x then - (mantissa x * 2 ^ exponent x)
        else mantissa x * 2 ^ exponent x)
  else (if negative x then - (mantissa x / 2 ^ (- exponent x))
        else - ((- mantissa x) / 2 ^ (- exponent x))).

End Py.


(** ** The standard library calls of the page loader *)

Module Hashlib.

(** [hashlib.md5(data).hexdigest()], after RFC 1321, on 32-bit words
    kept as integers below [2^32]. *)

Definition w32 (x : Z) : Z := Z.land x 4294967295.

Definition rotl (x s : Z) : Z :=
  w32 (Z.lor (Z.shiftl x s) (Z.shiftr x (32 - s))).

Definition K : list Z :=
  [ 0xd76aa478; 0xe8c7b756; 0x242070db; 0xc1bdceee;
    0xf57c0faf; 0x4787c62a; 0xa8304613; 0xfd469501;
    0x698098d8; 0x8b44f7af; 0xffff5bb1; 0x895cd7be;
    0x6b901122; 0xfd987193; 0xa679438e; 0x49b40821;
    0xf61e2562; 0xc040b340; 0x265e5a51; 0xe9b6c7aa;
    0xd62f105d; 0x02441453; 0xd8a1e681; 0xe7d3fbc8;
    0x21e1cde6; 0xc33707d6; 0xf4d50d87; 0x455a14ed;
    0xa9e3e905; 0xfcefa3f8; 0x676f02d9; 0x8d2a4c8a;
    0xfffa3942; 0x8771f681; 0x6d9d6122; 0xfde5380c;
    0xa4beea44; 0x4bdecfa9; 0xf6bb4b60; 0xbebfbc70;
    0x289b7ec6; 0xeaa127fa; 0xd4ef3085; 0x04881d05;
    0xd9d4d039; 0xe6db99e5; 0x1fa27cf8; 0xc4ac5665;
    0xf4292244; 0x432aff97; 0xab9423a7; 0xfc93a039;
    0x655b59c3; 0x8f0ccc92; 0xffeff47d; 0x85845dd1;
    0x6fa87e4f; 0xfe2ce6e0; 0xa3014314; 0x4e0811a1;
    0xf7537e82; 0xbd3af235; 0x2ad7d2bb; 0xeb86d391 ].

Definition S : list Z :=
  [ 7; 12; 17; 22; 7; 12; 17; 22; 7; 12; 17; 22; 7; 12; 17; 22;
    5; 9; 14; 20; 5; 9; 14; 20; 5; 9; 14; 20; 5; 9; 14; 20;
    4; 11; 16; 23; 4; 11; 16; 23; 4; 11; 16; 23; 4; 11; 16; 23;
    6; 10; 15; 21; 6; 10; 15; 21; 6; 10; 15; 21; 6; 10; 15; 21 ].

Definition state : Type := (Z * Z * Z * Z)%type.

Definition step (M : list Z) (st : state) (i : nat) : state :=
  let '(A, B, C, D) := st in
  let iz := Z.of_nat i in
  let '(F, g) :=
    if iz <? 16 then (Z.lor (Z.land B C) (Z.land (Z.lxor B 4294967295) D), iz)
    else if iz <? 32 then
      (Z.lor (Z.land D B) (Z.land (Z.lxor D 4294967295) C), (5 * iz + 1) mod 16)
    else if iz <? 48 then (Z.lxor B (Z.lxor C D), (3 * iz + 5) mod 16)
    else (Z.lxor C (Z.lor B (Z.lxor D 4294967295)), (7 * iz) mod 16) in
  let F' := w32 (F + A + nth i K 0 + nth (Z.to_nat g) M 0) in
  (D, w32 (B + rotl F' (nth i S 0)), B, C).

Definition word_le (b0 b1 b2 b3 : Z) : Z :=
  b0 + 256 * b1 + 65536 * b2 + 16777216 * b3.

Fixpoint words (n : nat) (bytes : list Z) : list Z :=
  match n, bytes with
  | Datatypes.S n', b0 :: b1 :: b2 :: b3 :: rest =>
      word_le b0 b1 b2 b3 :: words n' rest
  | _, _ => []
  end.

Definition block (st : state) (bytes : list Z) : state :=
  let '(a0, b0, c0, d0) := st in
  let '(A, B, C, D) := fold_left (step (words 16 bytes)) (seq 0 64) st in
  (w32 (a0 + A), w32 (b0 + B), w32 (c0 + C), w32 (d0 + D)).

Fixpoint blocks (n : nat) (st : state) (bytes : list Z) : state :=
  match n with
  | O => st
  | Datatypes.S n' => blocks n' (block st (firstn 64 bytes)) (skipn 64 bytes)
  end.

Definition le_bytes (n : nat) (x : Z) : list Z :=
  map (fun i => Z.land (Z.shiftr x (8 * Z.of_nat i)) 255) (seq 0 n).

Definition pad (bytes : list Z) : list Z :=
  let len := Z.of_nat (List.length bytes) in
  let zeros := Z.to_nat ((55 - len) mod 64) in
  bytes ++ [128] ++ repeat 0 zeros ++ le_bytes 8 ((8 * len) mod 2 ^ 64).

Definition digest (bytes : list Z) : list Z :=
  let padded := pad bytes in
  let '(a, b, c, d) :=
    blocks (List.length padded / 64) (0x67452301, 0xefcdab89, 0x98badcfe, 0x10325476)
           padded in
  le_bytes 4 a ++ le_bytes 4 b ++ le_bytes 4 c ++ le_bytes 4 d.

Definition md5_hexdigest (bytes : list Z) : string :=
  String.concat EmptyString (map Py.hex2 (digest bytes)).

End Hashlib.

Module Json.

(** [json.dumps(obj, separators=(',', ':'))] of the standard library:
    ASCII output, no white space, items in insertion order. *)

Definition escape (c : ascii) : string :=
  let n := Py.code c in
  if Ascii.eqb c Py.backslash || Ascii.eqb c Py.dquote
  then String Py.backslash (Py.char c)
  else if n =? 8 then String Py.backslash "b"
  else if n =? 12 then String Py.backslash "f"
  else if n =? 10 then String Py.backslash "n"
  else if n =? 13 then String Py.backslash "r"
  else if n =? 9 then String Py.backslash "t"
  else if (32 <=? n) && (n <=? 126) then Py.char c
  else String Py.backslash ("u00" ++ Py.hex2 n).

Fixpoint escape_chars (s : string) : string :=
  match s with
  | EmptyString => EmptyString
  | String c s' => escape c ++ escape_chars s'
  end.

Definition encode_basestring_ascii (s : string) : string :=
  String Py.dquote (escape_chars s ++ Py.char Py.dquote).

Fixpoint dumps (v : json) : string :=
  match v with
  | JNull => "null"
  | JBool true => "true"
  | JBool false => "false"
  | JNum n => Py.string_of_Z n
  | JStr s => encode_basestring_ascii s
  | JArr l => "[" ++ Py.join "," (map dumps l) ++ "]"
  | JObj m =>
      "{" ++ Py.join ","
               (map (fun kv => encode_basestring_ascii (fst kv) ++ ":" ++ dumps (snd kv)) m)
          ++ "}"
  end.

End Json.

(** ** The transport and the remote end *)

Record Cookie : Type := { name : string; value : string }.

(** [requests.Session]: the default headers, a mapping whose keys compare
    without regard to case, and the cookie jar. *)
Record Session : Type := {
  headers : list (string * string);
  cookies : list Cookie
}.

Record Request : Type := {
  req_url : string;
  req_headers : list (string * string)
}.

(** What the iterators run against.  [remote n r] is what the request [r],
    issued after [n] earlier ones, comes to: the decoded body
    ([res.json()] of a query, the shared data of a profile page) or the
    exception raised on the way.  [received n r jar] is the cookie jar of
    the session once the answer to that request is in: [Session.send]
    stores the cookies of a response in [session.cookies] before it hands
    the response back, so that the jar read after a request is the jar
    after that response.  A transport that fails before any response
    leaves the jar as it is, which is the case [received n r jar = jar]. *)
Record World : Type := {
  session : Session;
  remote : nat -> Request -> result json;
  received : nat -> Request -> list Cookie -> list Cookie;
  requests : list Request;
  slept : Z
}.

Module Headers.

(** [str.lower] on one character: the capital letters below 256. *)
Definition lower_char (c : ascii) : ascii :=
  let n := nat_of_ascii c in
  if (((65 <=? n) && (n <=? 90))
      || ((192 <=? n) && (n <=? 222) && negb (n =? 215)))%nat
  then ascii_of_nat (n + 32)
  else c.

Fixpoint lower (s : string) : string :=
  match s with
  | EmptyString => EmptyString
  | String c s' => String (lower_char c) (lower s')
  end.

Definition same (k k' : string) : bool := String.eqb (lower k) (lower k').

Fixpoint get (k : string) (h : list (string * string)) : option string :=
  match h with
  | [] => None
  | (k', v) :: h' => if same k k' then Some v else get k h'
  end.

Fixpoint set (k v : string) (h : list (string * string))
  : list (string * string) :=
  match h with
  | [] => [(k, v)]
  | (k', v') :: h' =>
      if same k k' then (k, v) :: h' else (k', v') :: set k v h'
  end.

End Headers.

Definition set_header (k v : string) (w : World) : World :=
  {| session := {| headers := Headers.set k v (headers (session w));
                   cookies := cookies (session w) |};
     remote := remote w;
     received := received w;
     requests := requests w;
     slept := slept w |}.

(** [session.get(url)] followed by the decoding of the response: the
    request goes out with the session's headers and is logged, and the
    cookies of the response are stored in the jar of the session. *)
Definition session_get (url : string) (w : World) : result json * World :=
  let r := {| req_url := url; req_headers := headers (session w) |} in
  let n := List.length (requests w) in
  (remote w n r,
   {| session := {| headers := headers (session w);
                    cookies := received w n r (cookies (session w)) |};
      remote := remote w;
      received := received w;
      requests := requests w ++ [r];
      slept := slept w |}).

(** [time.sleep(secs)]. *)
Definition sleep (secs : Z) (w : World) : World :=
  {| session := session w;
     remote := remote w;
     received := received w;
     requests := requests w;
     slept := slept w + secs |}.

(** ** PageIterator *)

Definition BASE_URL : string := "https://www.instagram.com/graphql/query/".
Definition PAGE_SIZE : Z := 200.
Definition QUERY_ID : string := "17882293912014529".
Definition QUERY_HASH : string := "472f257a40c653c64c666ce877d59d2b".

(** The two concrete classes, each with the field its [__init__] adds. *)
Inductive Class : Type :=
| HashtagIterator (hashtag : string)
| ProfileIterator (owner_id : json).

(** The generator object behind [_data_it]: suspended (before its first
    resumption or at its [yield]), or closed by an exception that left it. *)
Inductive Generator : Type := Suspended | Closed.

Record PageIterator : Type := {
  cls : Class;
  rhx : json;
  _finished : bool;
  _cursor : json;
  _current_page : Z;
  _total : option Z;
  _done : Z;
  _data_it : Generator
}.

Definition __init__ (c : Class) (rhx0 : json) : PageIterator :=
  {| cls := c;
     rhx := rhx0;
     _finished := false;
     _cursor := JNull;
     _current_page := 0;
     _total := None;
     _done := 0;
     _data_it := Suspended |}.

Definition section_generic (self : PageIterator) : string :=
  match cls self with
  | HashtagIterator _ => "hashtag"
  | ProfileIterator _ => "user"
  end.

Definition section_media (self : PageIterator) : string :=
  match cls self with
  | HashtagIterator _ => "edge_hashtag_to_media"
  | ProfileIterator _ => "edge_owner_to_timeline_media"
  end.

(** [self.URL.format(json_params)]. *)
Definition URL (self : PageIterator) (json_params : string) : string :=
  match cls self with
  | HashtagIterator _ => BASE_URL ++ "?query_id=" ++ QUERY_ID ++ "&variables=" ++ json_params
  | ProfileIterator _ => BASE_URL ++ "?query_hash=" ++ QUERY_HASH ++ "&variables=" ++ json_params
  end.

Definition _getparams (self : PageIterator) (cursor : json) : json :=
  match cls self with
  | HashtagIterator hashtag =>
      JObj [("tag_name", JStr hashtag); ("first", JNum PAGE_SIZE); ("after", cursor)]
  | ProfileIterator owner_id =>
      JObj [("id", owner_id); ("first", JNum PAGE_SIZE); ("after", cursor)]
  end.

Definition set_total (t : option Z) (self : PageIterator) : PageIterator :=
  {| cls := cls self; rhx := rhx self; _finished := _finished self;
     _cursor := _cursor self; _current_page := _current_page self;
     _total := t; _done := _done self; _data_it := _data_it self |}.

Definition set_finished (b : bool) (self : PageIterator) : PageIterator :=
  {| cls := cls self; rhx := rhx self; _finished := b;
     _cursor := _cursor self; _current_page := _current_page self;
     _total := _total self; _done := _done self; _data_it := _data_it self |}.

Definition set_data_it (g : Generator) (self : PageIterator) : PageIterator :=
  {| cls := cls self; rhx := rhx self; _finished := _finished self;
     _cursor := _cursor self; _current_page := _current_page self;
     _total := _total self; _done := _done self; _data_it := g |}.

(** [self._cursor = c; self._current_page += 1]. *)
Definition advance (c : json) (self : PageIterator) : PageIterator :=
  {| cls := cls self; rhx := rhx self; _finished := _finished self;
     _cursor := c; _current_page := _current_page self + 1;
     _total := _total self; _done := _done self; _data_it := _data_it self |}.

Definition bind {A B : Type} (r : result A) (k : A -> result B) : result B :=
  match r with
  | Return a => k a
  | Raise e => Raise e
  end.

Notation "x <- e ;; k" := (bind e (fun x => k))
  (at level 61, e at next level, right associativity).

(** The ceiling of the exact quotient [a / b]. *)
Definition ceil_div (a b : Z) : Z := - ((- a) / b).

(** [int(math.ceil(c / self.PAGE_SIZE))]: the true division of a number
    ([bool] counts as one) is the floating-point one, [OverflowError] when
    the quotient is too large for a float; anything else than a number
    raises [TypeError]. *)
Definition pages_of_count (c : json) : result Z :=
  match c with
  | JNum n =>
      match Py.true_divide n PAGE_SIZE with
      | Some x => Return (Py.ceil x)
      | None => Raise OverflowError
      end
  | JBool b =>
      match Py.true_divide (if b then 1 else 0) PAGE_SIZE with
      | Some x => Return (Py.ceil x)
      | None => Raise OverflowError
      end
  | _ => Raise TypeError
  end.

(** The [(rhx, csrf, json_params)] signature of a request. *)
Definition magic (self : PageIterator) (csrf json_params : string) : string :=
  Py.str (rhx self) ++ ":" ++ csrf ++ ":" ++ json_params.

Definition Op (A : Type) : Type :=
  option (result A * PageIterator * World).

(** One resumption of the generator [_page_loader]: the loop runs until
    it yields [data['data']] or an exception other than [KeyError] leaves
    it. *)
Fixpoint _page_loader (fuel : nat) (self : PageIterator) (w : World) : Op json :=
  match fuel with
  | O => None
  | S fuel' =>
      let params := _getparams self (_cursor self) in
      let json_params := Json.dumps params in
      match Headers.get "X-CSRFToken" (headers (session w)) with
      | None => _page_loader fuel' self (sleep 10 w)
      | Some csrf =>
          let w1 :=
            set_header "x-instagram-gis"
              (Hashlib.md5_hexdigest (Py.encode_utf8 (magic self csrf json_params))) w in
          let url := URL self json_params in
          match session_get url w1 with
          | (Raise e, w2) =>
              if is_KeyError e then _page_loader fuel' self (sleep 10 w2)
              else Some (Raise e, self, w2)
          | (Return data, w2) =>
              let produce self1 :=
                match Py.getitem data "data" with
                | Return d => Some (Return d, self1, w2)
                | Raise e =>
                    if is_KeyError e then _page_loader fuel' self1 (sleep 10 w2)
                    else Some (Raise e, self1, w2)
                end in
              match (d <- Py.getitem data "data" ;;
                     g <- Py.getitem d (section_generic self) ;;
                     m <- Py.getitem g (section_media self) ;;
                     c <- Py.getitem m "count" ;;
                     pages_of_count c) with
              | Return t => produce (set_total (Some t) self)
              | Raise e =>
                  if is_KeyError e || is_TypeError e
                  then produce (set_total (Some 0) self)
                  else Some (Raise e, self, w2)
              end
          end
      end
  end.

(** [next(self._data_it)]: a closed generator raises [StopIteration]; an
    exception that leaves the running generator closes it, a
    [StopIteration] among them reaching the caller as a [RuntimeError]. *)
Definition next_data_it (fuel : nat) (self : PageIterator) (w : World) : Op json :=
  match _data_it self with
  | Closed => Some (Raise StopIteration, self, w)
  | Suspended =>
      match _page_loader fuel self w with
      | None => None
      | Some (Return d, self1, w1) => Some (Return d, self1, w1)
      | Some (Raise e, self1, w1) =>
          Some (Raise (if is_StopIteration e
                       then RuntimeError "generator raised StopIteration"
                       else e),
                set_data_it Closed self1, w1)
      end
  end.

(** [return self._total - self._done]. *)
Definition total_minus_done (self : PageIterator) : result Z :=
  match _total self with
  | Some t => Return (t - _done self)
  | None => Raise TypeError
  end.

Definition __length_hint__ (fuel : nat) (self : PageIterator) (w : World) : Op Z :=
  match _total self with
  | Some _ => Some (total_minus_done self, self, w)
  | None =>
      match next_data_it fuel self w with
      | None => None
      | Some (Raise e, self1, w1) =>
          if is_StopIteration e || is_TypeError e
          then let self2 := set_total (Some 0) self1 in
               Some (total_minus_done self2, self2, w1)
          else Some (Raise e, self1, w1)
      | Some (Return data, self1, w1) =>
          match (g <- Py.getitem data (section_generic self1) ;;
                 m <- Py.getitem g (section_media self1) ;;
                 c <- Py.getitem m "count" ;;
                 pages_of_count c) with
          | Return t =>
              let self2 := set_total (Some t) self1 in
              Some (total_minus_done self2, self2, w1)
          | Raise e =>
              if is_StopIteration e || is_TypeError e
              then let self2 := set_total (Some 0) self1 in
                   Some (total_minus_done self2, self2, w1)
              else Some (Raise e, self1, w1)
          end
      end
  end.

Definition __next__ (fuel : nat) (self : PageIterator) (w : World) : Op json :=
  if _finished self then Some (Raise StopIteration, self, w)
  else
    match next_data_it fuel self w with
    | None => None
    | Some (Raise e, self1, w1) => Some (Raise e, self1, w1)
    | Some (Return data, self1, w1) =>
        match (g <- Py.getitem data (section_generic self1) ;;
               Py.getitem g (section_media self1)) with
        | Raise e =>
            if is_TypeError e || is_KeyError e
            then Some (Raise StopIteration, set_finished true self1, w1)
            else Some (Raise e, self1, w1)
        | Return media_info =>
            match (p <- Py.getitem media_info "page_info" ;;
                   Py.getitem p "has_next_page") with
            | Raise e => Some (Raise e, self1, w1)
            | Return has_next_page =>
                if negb (Py.truthy has_next_page)
                then Some (Py.getitem data (section_generic self1),
                           set_finished true self1, w1)
                else
                  match Py.getitem media_info "edges" with
                  | Raise e => Some (Raise e, self1, w1)
                  | Return edges =>
                      if negb (Py.truthy edges)
                      then Some (Raise StopIteration, set_finished true self1, w1)
                      else
                        match (p <- Py.getitem media_info "page_info" ;;
                               Py.getitem p "end_cursor") with
                        | Raise e => Some (Raise e, self1, w1)
                        | Return end_cursor =>
                            let self2 := advance end_cursor self1 in
                            Some (Py.getitem data (section_generic self2), self2, w1)
                        end
                  end
            end
        end
    end.

(** ** ProfileIterator.from_username *)

(** [get_shared_data] of [instalooter/_utils.py] is not among the sources
    at hand: the payload it extracts from the text of the profile page, or
    the exception that it or the transport raises, is what [remote]
    answers to the request for the profile URL. *)
Definition _user_data (username : string) (w : World) : result json * World :=
  let url := "https://www.instagram.com/" ++ username ++ "/" in
  match session_get url w with
  | (Return shared, w1) => (Return shared, w1)
  | (Raise e, w1) =>
      (match e with
       | ValueError _ | AttributeError =>
           Raise (ValueError ("account not found: " ++ username))
       | _ => Raise e
       end, w1)
  end.

(** [next((ck.value for ck in session.cookies if ck.name == k), None)]. *)
Fixpoint cookie_value (k : string) (jar : list Cookie) : option string :=
  match jar with
  | [] => None
  | ck :: jar' => if String.eqb (name ck) k then Some (value ck) else cookie_value k jar'
  end.

Definition from_username (username : string) (w : World)
  : result PageIterator * World :=
  match _user_data username w with
  | (Raise e, w1) => (Raise e, w1)
  | (Return user_data, w1) =>
      (e <- Py.getitem user_data "entry_data" ;;
       pp <- Py.getitem e "ProfilePage" ;;
       p0 <- Py.getitem0 pp ;;
       g <- Py.getitem p0 "graphql" ;;
       data <- Py.getitem g "user" ;;
       is_private <- Py.getitem data "is_private" ;;
       _ <- (if Py.truthy is_private
             then
               followed_by_viewer <- Py.getitem data "followed_by_viewer" ;;
               if negb (Py.truthy followed_by_viewer)
               then
                 let connected_id :=
                   cookie_value "ds_user_id" (cookies (session w1)) in
                 id <- Py.getitem data "id" ;;
                 if negb (Py.eq_opt_text connected_id id)
                 then Raise (RuntimeError ("user '" ++ username ++ "' is private"))
                 else Return tt
               else Return tt
             else Return tt) ;;
       id <- Py.getitem data "id" ;;
       rhx0 <- Py.getitem user_data "rhx_gis" ;;
       Return (__init__ (ProfileIterator id) rhx0),
       w1)
  end.

(** ** Running an iterator *)

(** [calls] successive calls of [__next__], as a [for] loop makes them:
    the values returned, and the exception that ended the loop if one
    did. *)
Fixpoint collect (calls fuel : nat) (self : PageIterator) (w : World)
  : option (list json * option exn * PageIterator * World) :=
  match calls with
  | O => Some ([], None, self, w)
  | S calls' =>
      match __next__ fuel self w with
      | None => None
      | Some (Raise e, self1, w1) => Some ([], Some e, self1, w1)
      | Some (Return v, self1, w1) =>
          match collect calls' fuel self1 w1 with
          | None => None
          | Some (vs, e, self2, w2) => Some (v :: vs, e, self2, w2)
          end
      end
  end.

(** The states an iterator can be in: fresh from [__init__], or after a
    call of [__next__] or [__length_hint__] that came back, whatever the
    world it ran in. *)
Inductive reachable : PageIterator -> Prop :=
| reach_init c r : reachable (__init__ c r)
| reach_next fuel self w r self' w' :
    reachable self ->
    __next__ fuel self w = Some (r, self', w') ->
    reachable self'
| reach_hint fuel self w r self' w' :
    reachable self ->
    __length_hint__ fuel self w = Some (r, self', w') ->
    reachable self'.

(** ** What a request and a page look like *)

(** The signature the loader computes for a cursor. *)
Definition gis (self : PageIterator) (csrf : string) (cursor : json) : string :=
  Hashlib.md5_hexdigest
    (Py.encode_utf8 (magic self csrf (Json.dumps (_getparams self cursor)))).

(** The request the loader issues for a cursor when the session's headers
    are [h] and hold the CSRF token [csrf]. *)
Definition page_request (self : PageIterator) (csrf : string)
  (h : list (string * string)) (cursor : json) : Request :=
  {| req_url := URL self (Json.dumps (_getparams self cursor));
     req_headers := Headers.set "x-instagram-gis" (gis self csrf cursor) h |}.

(** The world once that request is out. *)
Definition sent (self : PageIterator) (csrf : string) (w : World) : World :=
  {| session :=
       {| headers := Headers.set "x-instagram-gis" (gis self csrf (_cursor self))
                       (headers (session w));
          cookies :=
            received w (List.length (requests w))
              (page_request self csrf (headers (session w)) (_cursor self))
              (cookies (session w)) |};
     remote := remote w;
     received := received w;
     requests :=
       requests w ++ [page_request self csrf (headers (session w)) (_cursor self)];
     slept := slept w |}.

(** The answer of the remote end to the request the loader issues next. *)
Definition answer (self : PageIterator) (csrf : string) (w : World) : result json :=
  remote w (List.length (requests w))
    (page_request self csrf (headers (session w)) (_cursor self)).

(** [data[section_generic][section_media]['count']] turned into pages. *)
Definition count_pages (self : PageIterator) (d : json) : result Z :=
  g <- Py.getitem d (section_generic self) ;;
  m <- Py.getitem g (section_media self) ;;
  c <- Py.getitem m "count" ;;
  pages_of_count c.

Definition estimate (self : PageIterator) (d : json) : Z :=
  match count_pages self d with
  | Return t => t
  | Raise _ => 0
  end.

(** A fetch attempt that ends in a missing key: the transport raised
    [KeyError], or the decoded body is a dict without ['data']. *)
Definition missing_key (res : result json) : bool :=
  match res with
  | Raise e => is_KeyError e
  | Return body =>
      match Py.getitem body "data" with
      | Raise e => is_KeyError e
      | Return _ => false
      end
  end.

(** The jar once the cookies of [n] answers to the request [r] are stored
    in it one after the other, the first answer being the [k]-th of the
    world. *)
Fixpoint stored (f : nat -> Request -> list Cookie -> list Cookie) (r : Request)
  (k n : nat) (jar : list Cookie) : list Cookie :=
  match n with
  | O => jar
  | S n' => stored f r (S k) n' (f k r jar)
  end.

(** The world once [n] attempts have failed on a missing key and one more
    has gone out: the same request [n + 1] times, ten seconds slept after
    each failure. *)
Definition settled (n : nat) (self : PageIterator) (csrf : string) (w : World)
  : World :=
  {| session :=
       {| headers := headers (session (sent self csrf w));
          cookies :=
            stored (received w)
              (page_request self csrf (headers (session w)) (_cursor self))
              (List.length (requests w)) (S n) (cookies (session w)) |};
     remote := remote w;
     received := received w;
     requests :=
       requests w
       ++ repeat (page_request self csrf (headers (session w)) (_cursor self)) (S n);
     slept := slept w + 10 * Z.of_nat n |}.

(** The state a failed attempt leaves behind. *)
Definition retried (self : PageIterator) (res : result json) : PageIterator :=
  match res with
  | Return _ => set_total (Some 0) self
  | Raise _ => self
  end.

(** The parts of a page that [__next__] reads, [d] being [data['data']]. *)
Record Fields : Type := {
  f_generic : json;
  f_has_next_page : json;
  f_edges : json;
  f_end_cursor : json
}.

Definition fields (self : PageIterator) (d : json) : result Fields :=
  g <- Py.getitem d (section_generic self) ;;
  m <- Py.getitem g (section_media self) ;;
  p <- Py.getitem m "page_info" ;;
  h <- Py.getitem p "has_next_page" ;;
  e <- Py.getitem m "edges" ;;
  c <- Py.getitem p "end_cursor" ;;
  Return {| f_generic := g; f_has_next_page := h; f_edges := e; f_end_cursor := c |}.

(** A well-formed response body: ['data'] is there and has the fields. *)
Definition page (self : PageIterator) (body : json) : result Fields :=
  d <- Py.getitem body "data" ;; fields self d.

Definition generic_of (self : PageIterator) (body : json) : json :=
  match page self body with
  | Return f => f_generic f
  | Raise _ => JNull
  end.

Definition end_cursor_of (self : PageIterator) (body : json) : json :=
  match page self body with
  | Return f => f_end_cursor f
  | Raise _ => JNull
  end.

(** The count of a page, if it is a number, is not too large for
    [c / PAGE_SIZE] to be a float. *)
Definition count_fits (self : PageIterator) (body : json) : Prop :=
  forall d, Py.getitem body "data" = Return d ->
            count_pages self d <> Raise OverflowError.

(** A sequence of well-formed pages of which all but the last announce a
    next page and hold edges, and the last announces none. *)
Fixpoint chain (self : PageIterator) (pages : list json) : Prop :=
  match pages with
  | [] => False
  | body :: rest =>
      exists f, page self body = Return f /\ count_fits self body /\
        match rest with
        | [] => Py.truthy (f_has_next_page f) = false
        | _ :: _ =>
            Py.truthy (f_has_next_page f) = true /\
            Py.truthy (f_edges f) = true /\
            chain self rest
        end
  end.

(** The remote end answers the requests from the [k]-th on with [pages],
    in this order. *)
Definition served (w : World) (k : nat) (pages : list json) : Prop :=
  forall i r, (i < List.length pages)%nat ->
    remote w (k + i) r = Return (nth i pages JNull).

(** The cursors of the requests that fetch [pages] one after the other. *)
Definition cursor_chain (self : PageIterator) (pages : list json) : list json :=
  _cursor self :: map (end_cursor_of self) (removelast pages).

Definition url_of (self : PageIterator) (cursor : json) : string :=
  URL self (Json.dumps (_getparams self cursor)).

(** [data[section_generic][section_media]['count']]. *)
Definition count_of (self : PageIterator) (d : json) : result json :=
  g <- Py.getitem d (section_generic self) ;;
  m <- Py.getitem g (section_media self) ;;
  Py.getitem m "count".

(** A text of lowercase hexadecimal digits. *)
Fixpoint lowercase_hex (s : string) : bool :=
  match s with
  | EmptyString => true
  | String c s' => Py.occurs c "0123456789abcdef" && lowercase_hex s'
  end.

(** A request carries the signature of the iterator's current query: its
    [x-instagram-gis] header is the MD5 digest, in lowercase hexadecimal,
    of token, CSRF token and compact JSON parameters joined by colons, and
    its URL carries the same JSON. *)
Definition signed (self : PageIterator) (rq : Request) : Prop :=
  exists csrf digest,
    Headers.get "X-CSRFToken" (req_headers rq) = Some csrf /\
    Headers.get "x-instagram-gis" (req_headers rq) = Some digest /\
    digest = Hashlib.md5_hexdigest
               (Py.encode_utf8
                  (Py.str (rhx self) ++ ":" ++ csrf ++ ":"
                   ++ Json.dumps (_getparams self (_cursor self)))) /\
    lowercase_hex digest = true /\
    req_url rq = URL self (Json.dumps (_getparams self (_cursor self))).

(** The user object of a profile page's shared data. *)
Definition profile_user (user_data : json) : result json :=
  e <- Py.getitem user_data "entry_data" ;;
  pp <- Py.getitem e "ProfilePage" ;;
  p0 <- Py.getitem0 pp ;;
  g <- Py.getitem p0 "graphql" ;;
  Py.getitem g "user".

(** The request for the profile page of a handle, and the world once it
    is out. *)
Definition profile_request (username : string) (w : World) : Request :=
  {| req_url := "https://www.instagram.com/" ++ username ++ "/";
     req_headers := headers (session w) |}.

Definition visited (username : string) (w : World) : World :=
  {| session :=
       {| headers := headers (session w);
          cookies :=
            received w (List.length (requests w)) (profile_request username w)
              (cookies (session w)) |};
     remote := remote w;
     received := received w;
     requests := requests w ++ [profile_request username w];
     slept := slept w |}.

(** What an operation may change of the world: it appends requests and
    may spend time asleep, and of the headers of the session it touches
    [x-instagram-gis] alone. *)
Definition frame (w w' : World) : Prop :=
  (forall k, Headers.same k "x-instagram-gis" = false ->
       Headers.get k (headers (session w')) = Headers.get k (headers (session w)))
  /\ (exists new, requests w' = (requests w ++ new)%list)
  /\ slept w <= slept w'.

(** [__iter__]. *)
Definition __iter__ (self : PageIterator) : PageIterator := self.

(** ** Concrete inputs *)

Module Sample.

(** A response body of the profile query. *)
Definition user_page (count : json) (has_next_page : bool) (end_cursor : json)
  (edges : list json) : json :=
  JObj [("data",
    JObj [("user",
      JObj [("edge_owner_to_timeline_media",
        JObj [("count", count);
              ("page_info", JObj [("has_next_page", JBool has_next_page);
                                  ("end_cursor", end_cursor)]);
              ("edges", JArr edges)])])])].

Definition session0 (jar : list Cookie) : Session :=
  {| headers := [("X-CSRFToken", "token")]; cookies := jar |}.

(** A remote end that answers the [n]-th request with the [n]-th entry
    of a script, whatever the request, and fails beyond it.  Its responses
    set no cookie. *)
Definition scripted (script : list (result json)) : World :=
  {| session := session0 [];
     remote := fun n _ => nth n script (Raise (OtherError "ConnectionError"));
     received := fun _ _ jar => jar;
     requests := [];
     slept := 0 |}.

(** A remote end that answers by the request alone.  Its responses set
    no cookie. *)
Definition keyed (answers : Request -> result json) (jar : list Cookie) : World :=
  {| session := session0 jar;
     remote := fun _ r => answers r;
     received := fun _ _ jar => jar;
     requests := [];
     slept := 0 |}.

Definition fresh : PageIterator := __init__ (ProfileIterator (JStr "42")) (JStr "rhx").

Definition edge (n : Z) : json := JObj [("node", JObj [("id", JNum n)])].

Definition first_page : json := user_page (JNum 400) true (JStr "c1") [edge 1; edge 2].
Definition last_page : json := user_page (JNum 400) false JNull [edge 3].
Definition empty_last_page : json := user_page (JNum 0) false JNull [].
Definition empty_open_page : json := user_page (JNum 400) true (JStr "c1") [].
Definition other_count_page : json := user_page (JNum 1000) true (JStr "c2") [edge 3].
Definition countless_page : json :=
  JObj [("data",
    JObj [("user",
      JObj [("edge_owner_to_timeline_media",
        JObj [("page_info", JObj [("has_next_page", JBool true);
                                  ("end_cursor", JStr "c2")]);
              ("edges", JArr [edge 3])])])])].

(** The shared data of a profile page. *)
Definition shared (id : json) (is_private followed_by_viewer : bool) : json :=
  JObj [("entry_data",
    JObj [("ProfilePage",
      JArr [JObj [("graphql",
        JObj [("user",
          JObj [("id", id);
                ("is_private", JBool is_private);
                ("followed_by_viewer", JBool followed_by_viewer)])])]])]);
        ("rhx_gis", JStr "rhx")].

(** The shared data of the page served for a handle that does not
    exist: no [ProfilePage] entry. *)
Definition shared_not_found : json :=
  JObj [("entry_data", JObj [("HttpErrorPage", JArr [JObj []])]);
        ("rhx_gis", JStr "rhx")].

(** A private account that the viewer follows, empty jar. *)
Definition followed_world : World :=
  keyed (fun _ => Return (shared (JStr "7") true true)) [].

(** A private account that the viewer does not follow, the jar holding
    the identity of somebody else. *)
Definition stranger_world : World :=
  keyed (fun _ => Return (shared (JStr "7") true false))
    [{| name := "sessionid"; value := "s" |};
     {| name := "ds_user_id"; value := "8" |}].

(** The same account, the session holding no cookie, the response to the
    request for the profile page setting the identity cookie of the
    owner. *)
Definition login_world : World :=
  {| session := session0 [];
     remote := fun _ _ => Return (shared (JStr "7") true false);
     received := fun _ _ jar => {| name := "ds_user_id"; value := "7" |} :: jar;
     requests := [];
     slept := 0 |}.

(** A private account that the viewer does not follow and whose id is
    [null], empty jar. *)
Definition nameless_world : World :=
  keyed (fun _ => Return (shared JNull true false)) [].

Definition ghost_world : World := keyed (fun _ => Return shared_not_found) [].

Definition hollow_world : World :=
  keyed (fun _ => Return (JObj [("entry_data", JObj [("ProfilePage", JArr [])])])) [].

(** The iterator after [first_page], and the worlds in which its next
    fetch brings another count, or none. *)
Definition second : PageIterator := advance (JStr "c1") (set_total (Some 2) fresh).

Definition recount_world : World :=
  sent fresh "token" (scripted [Return first_page; Return other_count_page]).

Definition countless_world : World :=
  sent fresh "token" (scripted [Return first_page; Return countless_page]).

(** A remote end that answers the request for the first page of the
    collection, and no other, with [last_page]. *)
Definition single_page_world : World :=
  keyed (fun r => if String.eqb (req_url r) (url_of fresh JNull)
                  then Return last_page
                  else Raise (OtherError "ConnectionError")) [].

(** A last page that reports a count too large for the division. *)
Definition huge_page : json := user_page (JNum (10 ^ 400)) false JNull [edge 3].

(** A hashtag iterator. *)
Definition tagged : PageIterator := __init__ (HashtagIterator "cats") (JStr "rhx").

(** A session without CSRF token. *)
Definition anonymous_world : World :=
  {| session := {| headers := [("User-Agent", "agent")]; cookies := [] |};
     remote := fun _ _ => Return first_page;
     received := fun _ _ jar => jar;
     requests := [];
     slept := 0 |}.

(** A public profile, then its two pages. *)
Definition public_world : World :=
  scripted [Return (shared (JStr "42") false false);
            Return first_page; Return last_page].

(** A private profile whose id is a number, the jar holding the same
    digits. *)
Definition numeric_world : World :=
  keyed (fun _ => Return (shared (JNum 7) true false))
    [{| name := "ds_user_id"; value := "7" |}].

(** A page whose media section has no [page_info]. *)
Definition bare_page : json :=
  JObj [("data",
    JObj [("user",
      JObj [("edge_owner_to_timeline_media", JObj [("count", JNum 3)])])])].

End Sample.

(** * Properties *)

Arguments Hashlib.md5_hexdigest : simpl never.
Arguments Json.dumps : simpl never.
Arguments Py.str : simpl never.
Arguments gis : simpl never.

(** ** Headers *)

Lemma same_refl k : Headers.same k k = true.
Proof. unfold Headers.same. apply String.eqb_refl. Qed.

Lemma same_trans_false k k1 k2 :
  Headers.same k k1 = false -> Headers.same k1 k2 = true ->
  Headers.same k k2 = false.
Proof.
  unfold Headers.same. intros Hne Heq.
  apply String.eqb_eq in Heq. rewrite <- Heq. exact Hne.
Qed.

Lemma get_set_same k v h : Headers.get k (Headers.set k v h) = Some v.
Proof.
  induction h as [|[k1 v1] h IH]; simpl.
  - now rewrite same_refl.
  - destruct (Headers.same k k1) eqn:E; simpl.
    + now rewrite same_refl.
    + now rewrite E.
Qed.

Lemma get_set_other k k' v h :
  Headers.same k k' = false ->
  Headers.get k (Headers.set k' v h) = Headers.get k h.
Proof.
  intros Hne. induction h as [|[k1 v1] h IH]; simpl.
  - now rewrite Hne.
  - destruct (Headers.same k' k1) eqn:E; simpl.
    + rewrite Hne. now rewrite (same_trans_false _ _ _ Hne E).
    + destruct (Headers.same k k1); [reflexivity | exact IH].
Qed.

Lemma set_set k v v' h :
  Headers.set k v (Headers.set k v' h) = Headers.set k v h.
Proof.
  induction h as [|[k1 v1] h IH]; simpl.
  - now rewrite same_refl.
  - destruct (Headers.same k k1) eqn:E; simpl.
    + now rewrite same_refl.
    + rewrite E. now rewrite IH.
Qed.

Lemma csrf_after_signing v h :
  Headers.get "X-CSRFToken" (Headers.set "x-instagram-gis" v h)
  = Headers.get "X-CSRFToken" h.
Proof. apply get_set_other. reflexivity. Qed.

(** ** The library models at known values *)

Example md5_of_nothing :
  Hashlib.md5_hexdigest [] = "d41d8cd98f00b204e9800998ecf8427e".
Proof. vm_compute; reflexivity. Qed.

Example md5_of_abc :
  Hashlib.md5_hexdigest (Py.encode_utf8 "abc") = "900150983cd24fb0d6963f7d28e17f72".
Proof. vm_compute; reflexivity. Qed.

Example md5_of_a_sentence :
  Hashlib.md5_hexdigest (Py.encode_utf8 "The quick brown fox jumps over the lazy dog")
  = "9e107d9d372bb6826bd81d3542a419d6".
Proof. vm_compute; reflexivity. Qed.

Example md5_of_two_blocks :
  Hashlib.md5_hexdigest
    (Py.encode_utf8
       "12345678901234567890123456789012345678901234567890123456789012345678901234567890")
  = "57edf4a22be3c955ac49da2e2107b67a".
Proof. vm_compute; reflexivity. Qed.

Example dumps_of_profile_params :
  Json.dumps (_getparams Sample.fresh JNull)
  = "{" ++ Py.char Py.dquote ++ "id" ++ Py.char Py.dquote ++ ":"
        ++ Py.char Py.dquote ++ "42" ++ Py.char Py.dquote ++ ","
        ++ Py.char Py.dquote ++ "first" ++ Py.char Py.dquote ++ ":200,"
        ++ Py.char Py.dquote ++ "after" ++ Py.char Py.dquote ++ ":null}".
Proof. vm_compute; reflexivity. Qed.

(** The signature of the first request of [Sample.fresh], as Python
    computes it. *)
Example gis_of_first_request :
  gis Sample.fresh "token" JNull = "76f361c10805e50273776083711abb8d".
Proof. vm_compute; reflexivity. Qed.

(** ** The shape of a digest *)

Lemma get_occurs s : forall k c, String.get k s = Some c -> Py.occurs c s = true.
Proof.
  induction s as [|c' s IH]; intros k c H; [discriminate|].
  destruct k as [|k]; simpl in H |- *.
  - injection H as ->. now rewrite Ascii.eqb_refl.
  - rewrite (IH _ _ H). apply orb_true_r.
Qed.

Lemma hex_digit_hex n : Py.occurs (Py.hex_digit n) "0123456789abcdef" = true.
Proof.
  unfold Py.hex_digit.
  destruct (String.get (Z.to_nat n) "0123456789abcdef") as [c|] eqn:E.
  - exact (get_occurs _ _ _ E).
  - reflexivity.
Qed.

Lemma hex_of_bytes l :
  lowercase_hex (String.concat EmptyString (map Py.hex2 l)) = true
  /\ String.length (String.concat EmptyString (map Py.hex2 l)) = (2 * List.length l)%nat.
Proof.
  induction l as [|b l [IH1 IH2]]; [split; reflexivity|].
  assert (H : String.concat EmptyString (map Py.hex2 (b :: l))
              = String (Py.hex_digit (b / 16))
                  (String (Py.hex_digit (b mod 16))
                     (String.concat EmptyString (map Py.hex2 l)))).
  { cbn [map String.concat]. destruct (map Py.hex2 l); reflexivity. }
  rewrite H. split.
  - cbn [lowercase_hex]. now rewrite !hex_digit_hex, IH1.
  - cbn [String.length List.length]. rewrite IH2. lia.
Qed.

Lemma le_bytes_length n x : List.length (Hashlib.le_bytes n x) = n.
Proof. unfold Hashlib.le_bytes. now rewrite length_map, length_seq. Qed.

(** [hexdigest()] is a text of 32 lowercase hexadecimal digits. *)
Lemma md5_hexdigest_shape bytes :
  lowercase_hex (Hashlib.md5_hexdigest bytes) = true
  /\ String.length (Hashlib.md5_hexdigest bytes) = 32%nat.
Proof.
  unfold Hashlib.md5_hexdigest.
  destruct (hex_of_bytes (Hashlib.digest bytes)) as [H1 H2].
  split; [exact H1|]. rewrite H2. unfold Hashlib.digest.
  destruct (Hashlib.blocks _ _ _) as [[[a b] c] d].
  now rewrite !length_app, !le_bytes_length.
Qed.

(** ** One turn of the loader's loop *)

Lemma loader_turn fuel self w csrf :
  Headers.get "X-CSRFToken" (headers (session w)) = Some csrf ->
  _page_loader (S fuel) self w =
    match answer self csrf w with
    | Raise e =>
        if is_KeyError e then _page_loader fuel self (sleep 10 (sent self csrf w))
        else Some (Raise e, self, sent self csrf w)
    | Return data =>
        let produce self1 :=
          match Py.getitem data "data" with
          | Return d => Some (Return d, self1, sent self csrf w)
          | Raise e =>
              if is_KeyError e
              then _page_loader fuel self1 (sleep 10 (sent self csrf w))
              else Some (Raise e, self1, sent self csrf w)
          end in
        match (d <- Py.getitem data "data" ;; count_pages self d) with
        | Return t => produce (set_total (Some t) self)
        | Raise e =>
            if is_KeyError e || is_TypeError e
            then produce (set_total (Some 0) self)
            else Some (Raise e, self, sent self csrf w)
        end
    end.
Proof.
  intros Hcsrf. cbn [_page_loader]. rewrite Hcsrf. reflexivity.
Qed.

(** Without a CSRF token on the session the loop never gets to a request:
    each turn raises [KeyError] at the header and sleeps. *)
Lemma loader_without_csrf fuel : forall self w,
  Headers.get "X-CSRFToken" (headers (session w)) = None ->
  _page_loader fuel self w = None.
Proof.
  induction fuel as [|fuel IH]; intros self w H; [reflexivity|].
  cbn [_page_loader]. rewrite H. now apply IH.
Qed.

Lemma getitem_raises v k e :
  Py.getitem v k = Raise e -> is_KeyError e || is_TypeError e = true.
Proof.
  destruct v; simpl; try (intros [= <-]; reflexivity).
  destruct (Py.lookup k items); intros [= <-]; reflexivity.
Qed.

Lemma pages_of_count_raises c e :
  pages_of_count c = Raise e -> e = TypeError \/ e = OverflowError.
Proof.
  destruct c; cbn [pages_of_count];
    try destruct (Py.true_divide _ _); intros [= <-]; auto.
Qed.

Lemma count_pages_raises self d e :
  count_pages self d = Raise e ->
  is_KeyError e || is_TypeError e = true \/ e = OverflowError.
Proof.
  unfold count_pages, bind.
  destruct (Py.getitem d _) as [g|] eqn:E1; [|intros [= <-]; eauto using getitem_raises].
  destruct (Py.getitem g _) as [m|] eqn:E2; [|intros [= <-]; eauto using getitem_raises].
  destruct (Py.getitem m _) as [c|] eqn:E3; [|intros [= <-]; eauto using getitem_raises].
  intros H. destruct (pages_of_count_raises _ _ H) as [-> | ->]; auto.
Qed.

Lemma loader_yield fuel self w csrf body d :
  Headers.get "X-CSRFToken" (headers (session w)) = Some csrf ->
  answer self csrf w = Return body ->
  Py.getitem body "data" = Return d ->
  count_pages self d <> Raise OverflowError ->
  _page_loader (S fuel) self w
  = Some (Return d, set_total (Some (estimate self d)) self, sent self csrf w).
Proof.
  intros Hcsrf Hans Hdata Hfits.
  rewrite (loader_turn _ _ _ _ Hcsrf), Hans. unfold bind. rewrite Hdata.
  unfold estimate. destruct (count_pages self d) as [t|e] eqn:E; cbn zeta.
  - reflexivity.
  - destruct (count_pages_raises _ _ _ E) as [Hc | ->]; [now rewrite Hc | now destruct Hfits].
Qed.

(** A count too large for the division: [OverflowError] leaves the loader
    before the estimate is assigned. *)
Lemma loader_overflow fuel self w csrf body d :
  Headers.get "X-CSRFToken" (headers (session w)) = Some csrf ->
  answer self csrf w = Return body ->
  Py.getitem body "data" = Return d ->
  count_pages self d = Raise OverflowError ->
  _page_loader (S fuel) self w = Some (Raise OverflowError, self, sent self csrf w).
Proof.
  intros Hcsrf Hans Hdata Hover.
  rewrite (loader_turn _ _ _ _ Hcsrf), Hans. unfold bind. rewrite Hdata.
  now rewrite Hover.
Qed.

Lemma loader_retry fuel self w csrf :
  Headers.get "X-CSRFToken" (headers (session w)) = Some csrf ->
  missing_key (answer self csrf w) = true ->
  _page_loader (S fuel) self w
  = _page_loader fuel (retried self (answer self csrf w)) (sleep 10 (sent self csrf w)).
Proof.
  intros Hcsrf Hmiss.
  rewrite (loader_turn _ _ _ _ Hcsrf).
  destruct (answer self csrf w) as [body|e]; simpl in *.
  - unfold bind. destruct (Py.getitem body "data") as [d|e] eqn:E; [discriminate|].
    rewrite Hmiss. reflexivity.
  - now rewrite Hmiss.
Qed.

Lemma page_request_signed self csrf v h cursor :
  page_request self csrf (Headers.set "x-instagram-gis" v h) cursor
  = page_request self csrf h cursor.
Proof. unfold page_request. now rewrite set_set. Qed.

Lemma loader_retries n : forall fuel self w csrf body d,
  Headers.get "X-CSRFToken" (headers (session w)) = Some csrf ->
  (forall i, (i < n)%nat ->
     missing_key
       (remote w (List.length (requests w) + i)
          (page_request self csrf (headers (session w)) (_cursor self))) = true) ->
  remote w (List.length (requests w) + n)
    (page_request self csrf (headers (session w)) (_cursor self)) = Return body ->
  Py.getitem body "data" = Return d ->
  count_pages self d <> Raise OverflowError ->
  (n < fuel)%nat ->
  _page_loader fuel self w
  = Some (Return d, set_total (Some (estimate self d)) self, settled n self csrf w).
Proof.
  induction n as [|n IH];
    intros fuel self w csrf body d Hcsrf Hmiss Hans Hdata Hfits Hfuel;
    (destruct fuel as [|fuel]; [lia|]).
  - rewrite Nat.add_0_r in Hans.
    rewrite (loader_yield _ _ _ _ _ _ Hcsrf Hans Hdata Hfits).
    unfold settled, sent. simpl. now rewrite Z.add_0_r.
  - assert (H0 : missing_key (answer self csrf w) = true).
    { unfold answer. rewrite <- (Nat.add_0_r (List.length (requests w))).
      apply Hmiss. lia. }
    rewrite (loader_retry _ _ _ _ Hcsrf H0).
    set (self1 := retried self (answer self csrf w)).
    assert (Hc : cls self1 = cls self /\ rhx self1 = rhx self /\ _cursor self1 = _cursor self).
    { unfold self1. destruct (answer self csrf w); simpl; auto. }
    destruct Hc as (Hcls & Hrhx & Hcur).
    assert (Hreq : forall h c, page_request self1 csrf h c = page_request self csrf h c).
    { intros h c. unfold page_request, gis, magic, URL, _getparams.
      now rewrite Hcls, Hrhx. }
    assert (Hest : set_total (Some (estimate self1 d)) self1
                   = set_total (Some (estimate self d)) self).
    { unfold self1. destruct (answer self csrf w); reflexivity. }
    rewrite (IH fuel self1 (sleep 10 (sent self csrf w)) csrf body d).
    + rewrite Hest. f_equal. f_equal.
      unfold settled, sent, sleep;
        cbn [session remote received requests slept headers cookies].
      rewrite Hcur, !Hreq, page_request_signed, <- app_assoc.
      rewrite length_app, Nat.add_1_r.
      f_equal; [| rewrite Nat2Z.inj_succ; lia].
      f_equal. unfold gis, magic, _getparams. rewrite Hcls, Hrhx. apply set_set.
    + simpl. now rewrite csrf_after_signing.
    + intros i Hi. simpl. rewrite Hcur, Hreq, page_request_signed.
      rewrite length_app. simpl.
      replace (List.length (requests w) + 1 + i)%nat
        with (List.length (requests w) + S i)%nat by lia.
      apply Hmiss. lia.
    + simpl. rewrite Hcur, Hreq, page_request_signed.
      rewrite length_app. simpl.
      replace (List.length (requests w) + 1 + n)%nat
        with (List.length (requests w) + S n)%nat by lia.
      exact Hans.
    + exact Hdata.
    + unfold self1. destruct (answer self csrf w); exact Hfits.
    + lia.
Qed.

(** ** One call of [__next__] on a page the loader yields *)

Ltac fields_inv H :=
  unfold fields, bind in H;
  repeat match type of H with
         | context [match Py.getitem ?v ?k with _ => _ end] =>
             let E := fresh "E" in
             destruct (Py.getitem v k) eqn:E; [|discriminate H]
         end;
  injection H as H; subst.

Ltac rewrite_getitems :=
  repeat match goal with
         | E : Py.getitem ?v ?k = _ |- context [Py.getitem ?v ?k] => rewrite E
         end.

Lemma next_last fuel self w d self1 w1 f :
  _finished self = false ->
  next_data_it fuel self w = Some (Return d, self1, w1) ->
  fields self1 d = Return f ->
  Py.truthy (f_has_next_page f) = false ->
  __next__ fuel self w = Some (Return (f_generic f), set_finished true self1, w1).
Proof.
  intros Hfin Hgen Hf Hlast. unfold __next__. rewrite Hfin, Hgen.
  fields_inv Hf. cbn [f_generic f_has_next_page] in *. unfold bind.
  rewrite_getitems. now rewrite Hlast.
Qed.

Lemma next_empty fuel self w d self1 w1 f :
  _finished self = false ->
  next_data_it fuel self w = Some (Return d, self1, w1) ->
  fields self1 d = Return f ->
  Py.truthy (f_has_next_page f) = true ->
  Py.truthy (f_edges f) = false ->
  __next__ fuel self w = Some (Raise StopIteration, set_finished true self1, w1).
Proof.
  intros Hfin Hgen Hf Hmore Hedges. unfold __next__. rewrite Hfin, Hgen.
  fields_inv Hf. cbn [f_has_next_page f_edges] in *. unfold bind.
  rewrite_getitems. now rewrite Hmore, Hedges.
Qed.

Lemma next_more fuel self w d self1 w1 f :
  _finished self = false ->
  next_data_it fuel self w = Some (Return d, self1, w1) ->
  fields self1 d = Return f ->
  Py.truthy (f_has_next_page f) = true ->
  Py.truthy (f_edges f) = true ->
  __next__ fuel self w
  = Some (Return (f_generic f), advance (f_end_cursor f) self1, w1).
Proof.
  intros Hfin Hgen Hf Hmore Hedges. unfold __next__. rewrite Hfin, Hgen.
  fields_inv Hf. cbn [f_generic f_has_next_page f_edges f_end_cursor] in *.
  unfold bind. rewrite_getitems. rewrite Hmore, Hedges.
  cbn [negb]. f_equal. f_equal. f_equal. assumption.
Qed.

Lemma next_finished fuel self w :
  _finished self = true ->
  __next__ fuel self w = Some (Raise StopIteration, self, w).
Proof. intros H. unfold __next__. now rewrite H. Qed.

Lemma fields_cls self self' d :
  cls self' = cls self -> fields self' d = fields self d.
Proof.
  intros H. unfold fields, section_generic, section_media. now rewrite H.
Qed.

Lemma page_cls self self' body :
  cls self' = cls self -> page self' body = page self body.
Proof.
  intros H. unfold page. destruct (Py.getitem body "data"); simpl; auto using fields_cls.
Qed.

Lemma count_fits_cls self self' body :
  cls self' = cls self -> count_fits self' body <-> count_fits self body.
Proof.
  intros H. unfold count_fits, count_pages, section_generic, section_media.
  now rewrite H.
Qed.

Lemma chain_cls self self' pages :
  cls self' = cls self -> chain self' pages <-> chain self pages.
Proof.
  intros H. induction pages as [|body rest IH]; cbn [chain]; [tauto|].
  rewrite (page_cls _ _ _ H).
  pose proof (count_fits_cls _ _ body H) as Hk.
  destruct rest as [|b rest].
  - split; intros (f & Hp & Hc & Hn); exists f; repeat split; auto; now apply Hk.
  - split; intros (f & Hp & Hc & Hn & He & Hr); exists f; repeat split; auto;
      solve [now apply Hk | now apply IH].
Qed.

Lemma gen_first fuel self w csrf body d :
  _data_it self = Suspended ->
  Headers.get "X-CSRFToken" (headers (session w)) = Some csrf ->
  answer self csrf w = Return body ->
  Py.getitem body "data" = Return d ->
  count_pages self d <> Raise OverflowError ->
  next_data_it (S fuel) self w
  = Some (Return d, set_total (Some (estimate self d)) self, sent self csrf w).
Proof.
  intros Hgen Hcsrf Hans Hdata Hfits. unfold next_data_it.
  now rewrite Hgen, (loader_yield _ _ _ _ _ _ Hcsrf Hans Hdata Hfits).
Qed.

Lemma page_inv self body f :
  page self body = Return f ->
  exists d, Py.getitem body "data" = Return d /\ fields self d = Return f.
Proof.
  unfold page, bind. destruct (Py.getitem body "data") as [d|]; [|discriminate].
  intros H. now exists d.
Qed.

Lemma served_head w k body rest r :
  served w k (body :: rest) -> remote w k r = Return body.
Proof.
  intros H. specialize (H O r). rewrite Nat.add_0_r in H. apply H. simpl. lia.
Qed.

Lemma served_tail w w' k body rest :
  remote w' = remote w ->
  served w k (body :: rest) -> served w' (k + 1) rest.
Proof.
  intros Hr H i r Hi. rewrite Hr.
  replace (k + 1 + i)%nat with (k + S i)%nat by lia.
  apply (H (S i) r). simpl. lia.
Qed.

(** Iterating over a chain of pages served in sequence. *)
Lemma collect_chain pages : forall self w csrf fuel,
  _finished self = false ->
  _data_it self = Suspended ->
  Headers.get "X-CSRFToken" (headers (session w)) = Some csrf ->
  served w (List.length (requests w)) pages ->
  chain self pages ->
  exists self' w' new,
    collect (S (List.length pages)) (S fuel) self w
    = Some (map (generic_of self) pages, Some StopIteration, self', w')
    /\ requests w' = (requests w ++ new)%list
    /\ map req_url new = map (url_of self) (cursor_chain self pages)
    /\ _finished self' = true
    /\ _current_page self' = _current_page self + Z.of_nat (List.length pages) - 1.
Proof.
  induction pages as [|body rest IH]; intros self w csrf fuel Hfin Hgen Hcsrf Hserved Hchain;
    [destruct Hchain|].
  destruct Hchain as (f & Hpage & Hfits & Hrest).
  destruct (page_inv _ _ _ Hpage) as (d & Hdata & Hf).
  assert (Hans : answer self csrf w = Return body)
    by (unfold answer; eapply served_head; eauto).
  pose proof (gen_first fuel _ _ _ _ _ Hgen Hcsrf Hans Hdata (Hfits d Hdata)) as Hnext.
  assert (Hf1 : fields (set_total (Some (estimate self d)) self) d = Return f)
    by (rewrite <- Hf; now apply fields_cls).
  assert (Hg : generic_of self body = f_generic f)
    by (unfold generic_of; now rewrite Hpage).
  destruct rest as [|b rest].
  - pose proof (next_last _ _ _ _ _ _ _ Hfin Hnext Hf1 Hrest) as H1.
    eexists _, _, _. cbn [collect List.length]. rewrite H1.
    rewrite next_finished by reflexivity.
    cbn [map]. rewrite Hg. repeat split; try reflexivity.
    cbn [_current_page set_finished set_total]. lia.
  - destruct Hrest as (Hmore & Hedges & Hchain).
    pose proof (next_more _ _ _ _ _ _ _ Hfin Hnext Hf1 Hmore Hedges) as H1.
    set (self2 := advance (f_end_cursor f) (set_total (Some (estimate self d)) self)) in *.
    assert (Hcls : cls self2 = cls self) by reflexivity.
    destruct (IH self2 (sent self csrf w) csrf fuel) as (self' & w' & new & Hc & Hreq & Hurl & Hend & Hcp).
    + exact Hfin.
    + exact Hgen.
    + simpl. now rewrite csrf_after_signing.
    + simpl. rewrite length_app. simpl. eapply served_tail; [|exact Hserved]. reflexivity.
    + now apply (chain_cls self).
    + eexists self', w', (_ :: new).
      change (collect (S (List.length (body :: b :: rest))) (S fuel) self w)
        with (match __next__ (S fuel) self w with
              | None => None
              | Some (Raise e, self1, w1) => Some ([], Some e, self1, w1)
              | Some (Return v, self1, w1) =>
                  match collect (S (List.length (b :: rest))) (S fuel) self1 w1 with
                  | None => None
                  | Some (vs, e, self2, w2) => Some (v :: vs, e, self2, w2)
                  end
              end).
      rewrite H1, Hc. split; [|split; [|split; [|split]]].
      * cbn [map]. rewrite Hg. reflexivity.
      * rewrite Hreq. simpl. now rewrite <- app_assoc.
      * cbn [map]. rewrite Hurl. unfold cursor_chain.
        change (removelast (body :: b :: rest)) with (body :: removelast (b :: rest)).
        cbn [map].
        assert (Hec : end_cursor_of self body = f_end_cursor f)
          by (unfold end_cursor_of; now rewrite Hpage).
        rewrite Hec. reflexivity.
      * exact Hend.
      * rewrite Hcp. cbn [_current_page self2 advance set_total].
        change (List.length (body :: b :: rest)) with (S (List.length (b :: rest))).
        rewrite Nat2Z.inj_succ. lia.
Qed.

(** ** The claims *)

(** The cursor before each request of the iteration: after [i] calls the
    iterator holds the [i]-th cursor of the chain, that is, the
    [end_cursor] of the page returned last. *)
Lemma collect_cursors pages : forall i self w csrf fuel,
  _finished self = false ->
  _data_it self = Suspended ->
  Headers.get "X-CSRFToken" (headers (session w)) = Some csrf ->
  served w (List.length (requests w)) pages ->
  chain self pages ->
  (i < List.length pages)%nat ->
  exists s w1,
    collect i (S fuel) self w
    = Some (map (generic_of self) (firstn i pages), None, s, w1)
    /\ _cursor s = nth i (cursor_chain self pages) JNull.
Proof.
  induction pages as [|body rest IH];
    intros i self w csrf fuel Hfin Hgen Hcsrf Hserved Hchain Hi; [destruct Hchain|].
  destruct i as [|i]; [exists self, w; split; reflexivity|].
  destruct Hchain as (f & Hpage & Hfits & Hrest).
  destruct (page_inv _ _ _ Hpage) as (d & Hdata & Hf).
  assert (Hans : answer self csrf w = Return body)
    by (unfold answer; eapply served_head; eauto).
  pose proof (gen_first fuel _ _ _ _ _ Hgen Hcsrf Hans Hdata (Hfits d Hdata)) as Hnext.
  assert (Hf1 : fields (set_total (Some (estimate self d)) self) d = Return f)
    by (rewrite <- Hf; now apply fields_cls).
  assert (Hg : generic_of self body = f_generic f)
    by (unfold generic_of; now rewrite Hpage).
  assert (Hec : end_cursor_of self body = f_end_cursor f)
    by (unfold end_cursor_of; now rewrite Hpage).
  destruct rest as [|b rest]; [simpl in Hi; lia|].
  destruct Hrest as (Hmore & Hedges & Hchain).
  pose proof (next_more _ _ _ _ _ _ _ Hfin Hnext Hf1 Hmore Hedges) as H1.
  set (self2 := advance (f_end_cursor f) (set_total (Some (estimate self d)) self)) in *.
  destruct (IH i self2 (sent self csrf w) csrf fuel) as (s & w1 & Hc & Hcur).
  - exact Hfin.
  - exact Hgen.
  - simpl. now rewrite csrf_after_signing.
  - simpl. rewrite length_app. simpl. eapply served_tail; [|exact Hserved]. reflexivity.
  - now apply (chain_cls self).
  - simpl in Hi. simpl. lia.
  - exists s, w1. split.
    + change (collect (S i) (S fuel) self w)
        with (match __next__ (S fuel) self w with
              | None => None
              | Some (Raise e, self1, w1) => Some ([], Some e, self1, w1)
              | Some (Return v, self1, w1) =>
                  match collect i (S fuel) self1 w1 with
                  | None => None
                  | Some (vs, e, self2, w2) => Some (v :: vs, e, self2, w2)
                  end
              end).
      rewrite H1, Hc. cbn [firstn map]. rewrite Hg. reflexivity.
    + rewrite Hcur. unfold cursor_chain.
      change (removelast (body :: b :: rest)) with (body :: removelast (b :: rest)).
      cbn [map nth]. rewrite Hec. reflexivity.
Qed.

Ltac count_fits_here :=
  let d := fresh "d" in
  let Hd := fresh "Hd" in
  intros d Hd; vm_compute in Hd; injection Hd as <-; vm_compute; discriminate.

(** C1, as stated, fails: a single last page with all its fields, whose
    count is too large for the division by the page size, is not
    returned; [OverflowError] leaves the loader, and [__next__] with
    it. *)
Lemma C1_counterexample :
  page Sample.fresh Sample.huge_page
  = Return {| f_generic := generic_of Sample.fresh Sample.huge_page;
              f_has_next_page := JBool false;
              f_edges := JArr [Sample.edge 3];
              f_end_cursor := JNull |}
  /\ collect 2 1 Sample.fresh (Sample.scripted [Return Sample.huge_page])
     = Some ([], Some OverflowError, set_data_it Closed Sample.fresh,
             sent Sample.fresh "token" (Sample.scripted [Return Sample.huge_page])).
Proof. split; vm_compute; reflexivity. Qed.

(** C1, amended.  For a sequence of N well-formed pages served in order,
    whose counts are not too large for the division by the page size, and
    of which all but the last announce a next page and hold edges and the
    last announces none: N + 1 calls of [__next__] on an active iterator
    return the generic sections of the N pages in order and then raise
    [StopIteration].  Before each request the cursor of the iterator is
    the one it started with, for the first, and the [end_cursor] of the
    page returned last, for the others; the N requests go out with these
    cursors, and [_current_page] has advanced once for each page before
    the last. *)
Theorem C1_pages_in_order_along_the_cursor_chain
  (pages : list json) (self : PageIterator) (w : World) (csrf : string) (fuel : nat) :
  _finished self = false ->
  _data_it self = Suspended ->
  Headers.get "X-CSRFToken" (headers (session w)) = Some csrf ->
  served w (List.length (requests w)) pages ->
  chain self pages ->
  (exists self' w' new,
     collect (S (List.length pages)) (S fuel) self w
     = Some (map (generic_of self) pages, Some StopIteration, self', w')
     /\ requests w' = (requests w ++ new)%list
     /\ map req_url new = map (url_of self) (cursor_chain self pages)
     /\ _finished self' = true
     /\ _current_page self' = _current_page self + Z.of_nat (List.length pages) - 1)
  /\ forall i, (i < List.length pages)%nat ->
       exists s w1,
         collect i (S fuel) self w
         = Some (map (generic_of self) (firstn i pages), None, s, w1)
         /\ _cursor s = nth i (cursor_chain self pages) JNull.
Proof.
  intros Hfin Hgen Hcsrf Hserved Hchain. split.
  - exact (collect_chain pages self w csrf fuel Hfin Hgen Hcsrf Hserved Hchain).
  - intros i Hi.
    exact (collect_cursors pages i self w csrf fuel Hfin Hgen Hcsrf Hserved Hchain Hi).
Qed.

Lemma C1_witness :
  (exists self' w' new,
     collect 3 1 Sample.fresh
       (Sample.scripted [Return Sample.first_page; Return Sample.last_page])
     = Some ([generic_of Sample.fresh Sample.first_page;
              generic_of Sample.fresh Sample.last_page],
             Some StopIteration, self', w')
     /\ requests w' = new
     /\ map req_url new = [url_of Sample.fresh JNull; url_of Sample.fresh (JStr "c1")]
     /\ _finished self' = true
     /\ _current_page self' = 0 + 2 - 1)
  /\ exists s w1,
       collect 1 1 Sample.fresh
         (Sample.scripted [Return Sample.first_page; Return Sample.last_page])
       = Some ([generic_of Sample.fresh Sample.first_page], None, s, w1)
       /\ _cursor s = JStr "c1".
Proof.
  destruct (C1_pages_in_order_along_the_cursor_chain
              [Sample.first_page; Sample.last_page] Sample.fresh
              (Sample.scripted [Return Sample.first_page; Return Sample.last_page])
              "token" 0) as [H1 H2].
  - reflexivity.
  - reflexivity.
  - reflexivity.
  - intros i r Hi. destruct i as [|[|i]]; [reflexivity | reflexivity | simpl in Hi; lia].
  - cbn [chain]. eexists. split; [reflexivity|]. split; [count_fits_here|].
    split; [reflexivity|]. split; [reflexivity|].
    eexists. split; [reflexivity|]. split; [count_fits_here | reflexivity].
  - split; [exact H1 | exact (H2 1%nat ltac:(simpl; lia))].
Defined.

(** C2, as stated, fails: a page without edges that announces no next
    page is the last page, and [__next__] returns it. *)
Lemma C2_counterexample :
  page Sample.fresh Sample.empty_last_page
  = Return {| f_generic := generic_of Sample.fresh Sample.empty_last_page;
              f_has_next_page := JBool false;
              f_edges := JArr [];
              f_end_cursor := JNull |}
  /\ __next__ 1 Sample.fresh (Sample.scripted [Return Sample.empty_last_page])
     = Some (Return (generic_of Sample.fresh Sample.empty_last_page),
             set_finished true (set_total (Some 0) Sample.fresh),
             sent Sample.fresh "token" (Sample.scripted [Return Sample.empty_last_page])).
Proof. split; vm_compute; reflexivity. Qed.

(** C2, amended.  For a page without edges that the loader yields to
    [__next__]: if the page announces a next page, the call marks the
    iterator finished and raises [StopIteration] without returning the
    page; if it announces none, the call marks the iterator finished and
    returns the page's generic section. *)
Theorem C2_page_without_edges
  (fuel : nat) (self : PageIterator) (w : World)
  (d : json) (self1 : PageIterator) (w1 : World) (f : Fields) :
  _finished self = false ->
  next_data_it fuel self w = Some (Return d, self1, w1) ->
  fields self1 d = Return f ->
  Py.truthy (f_edges f) = false ->
  (Py.truthy (f_has_next_page f) = true ->
   __next__ fuel self w = Some (Raise StopIteration, set_finished true self1, w1))
  /\ (Py.truthy (f_has_next_page f) = false ->
      __next__ fuel self w = Some (Return (f_generic f), set_finished true self1, w1)).
Proof.
  intros Hfin Hgen Hf Hedges. split; intros Hn.
  - eapply next_empty; eauto.
  - eapply next_last; eauto.
Qed.

Lemma C2_witness :
  __next__ 1 Sample.fresh (Sample.scripted [Return Sample.empty_open_page])
  = Some (Raise StopIteration,
          set_finished true (set_total (Some 2) Sample.fresh),
          sent Sample.fresh "token" (Sample.scripted [Return Sample.empty_open_page])).
Proof.
  refine (proj1 (C2_page_without_edges 1 Sample.fresh
                   (Sample.scripted [Return Sample.empty_open_page])
                   (JObj [("user", generic_of Sample.fresh Sample.empty_open_page)])
                   (set_total (Some 2) Sample.fresh)
                   (sent Sample.fresh "token" (Sample.scripted [Return Sample.empty_open_page]))
                   {| f_generic := generic_of Sample.fresh Sample.empty_open_page;
                      f_has_next_page := JBool true;
                      f_edges := JArr [];
                      f_end_cursor := JStr "c1" |} _ _ _ _) _);
    vm_compute; reflexivity.
Defined.

(** ** The length hint *)

Ltac loader_done H :=
  injection H as <- <- <-; repeat split; auto; try discriminate.

Lemma loader_keeps fuel : forall self w r self' w',
  _page_loader fuel self w = Some (r, self', w') ->
  _done self' = _done self /\ _finished self' = _finished self
  /\ _cursor self' = _cursor self /\ _data_it self' = _data_it self
  /\ cls self' = cls self /\ rhx self' = rhx self
  /\ (_total self <> None -> _total self' <> None)
  /\ (forall d, r = Return d -> _total self' <> None).
Proof.
  induction fuel as [|fuel IH]; intros self w r self' w' H; [discriminate|].
  cbn [_page_loader] in H.
  destruct (Headers.get "X-CSRFToken" (headers (session w))) as [csrf|];
    [|exact (IH _ _ _ _ _ H)].
  match type of H with
  | context [session_get ?u ?x] => destruct (session_get u x) as [[data|e] w2]
  end.
  - unfold bind in H.
    destruct (Py.getitem data "data") as [d|e] eqn:Ed.
    + match type of H with
      | context [match ?c with Return _ => _ | Raise _ => _ end] =>
          destruct c as [t|e]
      end.
      * loader_done H.
      * destruct (is_KeyError e || is_TypeError e); loader_done H.
    + destruct (is_KeyError e || is_TypeError e) eqn:Ec.
      * destruct (is_KeyError e).
        -- apply IH in H. cbn in H. intuition discriminate.
        -- loader_done H.
      * loader_done H.
  - destruct (is_KeyError e).
    + exact (IH _ _ _ _ _ H).
    + loader_done H.
Qed.

Ltac branches :=
  unfold bind;
  repeat match goal with
         | |- context [match Py.getitem ?a ?b with _ => _ end] =>
             destruct (Py.getitem a b)
         | |- context [match pages_of_count ?c with _ => _ end] =>
             destruct (pages_of_count c)
         | |- context [if negb (Py.truthy ?x) then _ else _] =>
             destruct (negb (Py.truthy x))
         | |- context [if is_TypeError ?e || is_KeyError ?e then _ else _] =>
             destruct (is_TypeError e || is_KeyError e)
         | |- context [if is_StopIteration ?e || is_TypeError ?e then _ else _] =>
             destruct (is_StopIteration e || is_TypeError e)
         end.

Lemma next_keeps_done fuel self w r self' w' :
  __next__ fuel self w = Some (r, self', w') -> _done self' = _done self.
Proof.
  unfold __next__, next_data_it.
  destruct (_finished self); [now intros [= <- <- <-]|].
  destruct (_data_it self); [|now intros [= <- <- <-]].
  destruct (_page_loader fuel self w) as [[[[d|e] self1] w1]|] eqn:El; [| |discriminate];
    apply loader_keeps in El; destruct El as (Hd & _);
    branches; intros [= <- <- <-]; exact Hd.
Qed.

Lemma hint_keeps_done fuel self w r self' w' :
  __length_hint__ fuel self w = Some (r, self', w') -> _done self' = _done self.
Proof.
  unfold __length_hint__, next_data_it.
  destruct (_total self); [now intros [= <- <- <-]|].
  destruct (_data_it self).
  - destruct (_page_loader fuel self w) as [[[[d|e] self1] w1]|] eqn:El; [| |discriminate];
      apply loader_keeps in El; destruct El as (Hd & _);
      branches; intros [= <- <- <-]; exact Hd.
  - simpl. now intros [= <- <- <-].
Qed.

(** Nothing advances [_done]: it is 0 in every state an iterator reaches. *)
Lemma reachable_done self : reachable self -> _done self = 0.
Proof.
  induction 1 as [c r | fuel self w r self' w' _ IH H | fuel self w r self' w' _ IH H].
  - reflexivity.
  - now rewrite (next_keeps_done _ _ _ _ _ _ H).
  - now rewrite (hint_keeps_done _ _ _ _ _ _ H).
Qed.

(** Once the estimate is known, the hint is the estimate itself, however
    many pages have been returned. *)
Lemma hint_is_total fuel self w t :
  reachable self -> _total self = Some t ->
  __length_hint__ fuel self w = Some (Return t, self, w).
Proof.
  intros Hr Ht. unfold __length_hint__, total_minus_done.
  now rewrite Ht, (reachable_done _ Hr), Z.sub_0_r.
Qed.

(** C3.  One page of a collection of 400 items has been returned: the
    length hint is 2, where [ceil(400 / 200) - 1] is 1. *)
Theorem C3_length_hint_after_one_page :
  __next__ 1 Sample.fresh (Sample.scripted [Return Sample.first_page])
  = Some (Return (generic_of Sample.fresh Sample.first_page),
          advance (JStr "c1") (set_total (Some 2) Sample.fresh),
          sent Sample.fresh "token" (Sample.scripted [Return Sample.first_page]))
  /\ __length_hint__ 1
       (advance (JStr "c1") (set_total (Some 2) Sample.fresh))
       (sent Sample.fresh "token" (Sample.scripted [Return Sample.first_page]))
     = Some (Return 2,
             advance (JStr "c1") (set_total (Some 2) Sample.fresh),
             sent Sample.fresh "token" (Sample.scripted [Return Sample.first_page]))
  /\ ceil_div 400 PAGE_SIZE - 1 = 1.
Proof. split; [|split]; vm_compute; reflexivity. Qed.

(** A first page whose data lacks the generic section: the loader sets the
    estimate to 0 and yields, and the [KeyError] of the hint's own lookup
    leaves [__length_hint__]. *)
Example length_hint_raises_KeyError :
  __length_hint__ 1 Sample.fresh (Sample.scripted [Return (JObj [("data", JObj [])])])
  = Some (Raise (KeyError "user"),
          set_total (Some 0) Sample.fresh,
          sent Sample.fresh "token" (Sample.scripted [Return (JObj [("data", JObj [])])])).
Proof. vm_compute; reflexivity. Qed.

(** With the estimate at 2 after the first page, a second page that
    reports 1000 items brings the hint to 5. *)
Example length_hint_follows_the_last_count :
  __length_hint__ 0 Sample.second Sample.recount_world
  = Some (Return 2, Sample.second, Sample.recount_world)
  /\ __next__ 1 Sample.second Sample.recount_world
     = Some (Return (generic_of Sample.fresh Sample.other_count_page),
             advance (JStr "c2") (set_total (Some 5) Sample.second),
             sent Sample.second "token" Sample.recount_world)
  /\ __length_hint__ 0 (advance (JStr "c2") (set_total (Some 5) Sample.second))
       (sent Sample.second "token" Sample.recount_world)
     = Some (Return 5, advance (JStr "c2") (set_total (Some 5) Sample.second),
             sent Sample.second "token" Sample.recount_world).
Proof. split; [|split]; vm_compute; reflexivity. Qed.

(** ** The estimate and the retries of the loader *)

Lemma count_pages_of self d :
  count_pages self d = (c <- count_of self d ;; pages_of_count c).
Proof.
  unfold count_pages, count_of, bind.
  destruct (Py.getitem d (section_generic self)) as [g|]; [|reflexivity].
  destruct (Py.getitem g (section_media self)) as [m|]; reflexivity.
Qed.

(** ** The division of the count by the page size *)

(** Rounding to nearest stays within half a unit. *)
Lemma round_half_even_spec n d :
  0 < d ->
  2 * (Py.round_half_even n d * d) <= 2 * n + d
  /\ 2 * n <= 2 * (Py.round_half_even n d * d) + d.
Proof.
  intros Hd. unfold Py.round_half_even.
  pose proof (Z.div_mod n d ltac:(lia)) as Hdm.
  pose proof (Z.mod_pos_bound n d Hd) as Hr.
  set (q := n / d) in *. set (r := n mod d) in *.
  assert (Hq : q * d = n - r) by lia.
  destruct (Z.ltb_spec (2 * r) d); [lia|].
  destruct (Z.ltb_spec d (2 * r)); [lia|].
  destruct (Z.even q); lia.
Qed.

(** The ceiling of a quotient by its bounds. *)
Lemma ceil_of_scaled m P t :
  0 < P -> P * (t - 1) < m <= P * t -> - ((- m) / P) = t.
Proof.
  intros HP Hm.
  assert (H : (- m) / P = - t); [|lia].
  symmetry. apply (Z.div_unique_pos (- m) P (- t) (P * t - m)); lia.
Qed.

(** Below [200 * 2 ^ 46] the quotient keeps at least seven binary places
    after the point, and rounding it does not cross an integer: the
    ceiling of the float is the ceiling of the quotient. *)
Lemma true_divide_small c :
  0 <= c < 200 * 2 ^ 46 ->
  exists x, Py.true_divide c 200 = Some x /\ Py.ceil x = ceil_div c 200.
Proof.
  intros Hc. unfold Py.true_divide.
  destruct (Z.eqb_spec c 0) as [-> | Hne]; [eexists; split; reflexivity|].
  assert (Hpos : 0 < c) by lia.
  rewrite (Z.abs_eq c) by lia.
  change (Z.log2 200) with 7.
  assert (Hlog : Z.log2 c < 54).
  { apply Z.log2_lt_pow2; [lia|]. change (2 ^ 54) with (256 * 2 ^ 46). lia. }
  set (k := Z.log2 c - 7).
  set (s := if (if 0 <=? k then 200 * 2 ^ k <=? c else 200 <=? c * 2 ^ (- k)) then k else k - 1).
  assert (Hs : s <= 45).
  { unfold s. destruct (Z.leb_spec 0 k) as [Hk|Hk].
    - destruct (Z.leb_spec (200 * 2 ^ k) c) as [Hle|Hle]; [|lia].
      assert (2 ^ k < 2 ^ 46) by lia.
      apply Z.pow_lt_mono_r_iff in H; lia.
    - destruct (200 <=? c * 2 ^ (- k)); lia. }
  set (e := s - 52).
  assert (He : e <= -7) by (unfold e; lia).
  destruct (Z.leb_spec 0 e) as [?|_]; [lia|].
  set (P := 2 ^ (- e)).
  assert (HP : 128 <= P).
  { unfold P. change 128 with (2 ^ 7). apply Z.pow_le_mono_r; lia. }
  set (m := Py.round_half_even (c * P) 200).
  destruct (round_half_even_spec (c * P) 200 ltac:(lia)) as [Hup Hlo]. fold m in Hup, Hlo.
  set (t := ceil_div c 200).
  assert (Ht : 200 * (t - 1) < c <= 200 * t).
  { unfold t, ceil_div.
    pose proof (Z.div_mod (- c) 200 ltac:(lia)).
    pose proof (Z.mod_pos_bound (- c) 200 ltac:(lia)). lia. }
  assert (Hm : P * (t - 1) < m <= P * t) by nia.
  destruct (Z.eqb_spec m (2 ^ 53)) as [E|E]; cbn [fst snd].
  - destruct (Z.ltb_spec 971 (e + 1)) as [?|_]; [lia|].
    eexists; split; [reflexivity|]. unfold Py.ceil; cbn [Py.exponent Py.mantissa Py.negative].
    destruct (Z.leb_spec 0 (e + 1)) as [?|_]; [lia|].
    destruct (Z.ltb_spec c 0) as [?|_]; [lia|].
    apply ceil_of_scaled.
    + apply Z.pow_pos_nonneg; lia.
    + assert (HP2 : P = 2 * 2 ^ (- (e + 1))).
      { unfold P. rewrite <- Z.pow_succ_r by lia. f_equal. lia. }
      change (2 ^ 53) with (2 * 2 ^ 52) in E. nia.
  - destruct (Z.ltb_spec 971 e) as [?|_]; [lia|].
    eexists; split; [reflexivity|]. unfold Py.ceil; cbn [Py.exponent Py.mantissa Py.negative].
    destruct (Z.leb_spec 0 e) as [?|_]; [lia|].
    destruct (Z.ltb_spec c 0) as [?|_]; [lia|].
    apply ceil_of_scaled; [fold P; lia | exact Hm].
Qed.

Lemma pages_of_count_small c :
  0 <= c < 200 * 2 ^ 46 ->
  pages_of_count (JNum c) = Return (ceil_div c PAGE_SIZE).
Proof.
  intros Hc. destruct (true_divide_small c Hc) as (x & Hx & Hceil).
  unfold pages_of_count, PAGE_SIZE. now rewrite Hx, Hceil.
Qed.

(** At the first count beyond that range the two differ, and far beyond
    it the division has no result. *)
Example pages_of_count_beyond :
  pages_of_count (JNum (200 * 2 ^ 46 + 1)) = Return (2 ^ 46)
  /\ ceil_div (200 * 2 ^ 46 + 1) PAGE_SIZE = 2 ^ 46 + 1
  /\ pages_of_count (JNum (10 ^ 400)) = Raise OverflowError.
Proof. split; [|split]; vm_compute; reflexivity. Qed.

(** Such a count on the first page: [OverflowError] reaches the caller
    of [__length_hint__] as it reaches the caller of [__next__], and the
    generator is closed. *)
Example overflow_reaches_the_caller :
  __length_hint__ 1 Sample.fresh (Sample.scripted [Return Sample.huge_page])
  = Some (Raise OverflowError, set_data_it Closed Sample.fresh,
          sent Sample.fresh "token" (Sample.scripted [Return Sample.huge_page]))
  /\ __next__ 1 Sample.fresh (Sample.scripted [Return Sample.huge_page])
     = Some (Raise OverflowError, set_data_it Closed Sample.fresh,
             sent Sample.fresh "token" (Sample.scripted [Return Sample.huge_page])).
Proof. split; vm_compute; reflexivity. Qed.

(** ** The estimate *)

(** C4, as stated, fails: with an estimate of 2 from an earlier fetch, a
    fetch that reports 1000 items sets the estimate to 5, and a fetch
    whose page carries no count sets it to 0. *)
Lemma C4_counterexample :
  _total Sample.second = Some 2
  /\ _page_loader 1 Sample.second Sample.recount_world
     = Some (Return (JObj [("user", generic_of Sample.second Sample.other_count_page)]),
             set_total (Some 5) Sample.second,
             sent Sample.second "token" Sample.recount_world)
  /\ _page_loader 1 Sample.second Sample.countless_world
     = Some (Return (JObj [("user", generic_of Sample.second Sample.countless_page)]),
             set_total (Some 0) Sample.second,
             sent Sample.second "token" Sample.countless_world).
Proof. split; [|split]; vm_compute; reflexivity. Qed.

(** C4, amended.  A fetch whose decoded body is a dict with a ['data']
    entry sets the estimate anew, whatever it was before, or fails.  When
    the count is an integer [c] and the float division [c / PAGE_SIZE]
    has a result, the entry is yielded and the estimate is the ceiling of
    that float; for [0 <= c < 200 * 2 ^ 46] this is the ceiling of the
    exact quotient.  When the division overflows, [OverflowError] leaves
    the loader: nothing is yielded and the estimate stays as it was.  When
    the count is structurally absent, or is no number, the entry is
    yielded and the estimate is 0. *)
Theorem C4_estimate_is_set_by_every_fetch
  (fuel : nat) (self : PageIterator) (w : World) (csrf : string) (body d : json) :
  Headers.get "X-CSRFToken" (headers (session w)) = Some csrf ->
  answer self csrf w = Return body ->
  Py.getitem body "data" = Return d ->
  (forall c x, count_of self d = Return (JNum c) ->
     Py.true_divide c PAGE_SIZE = Some x ->
     _page_loader (S fuel) self w
     = Some (Return d, set_total (Some (Py.ceil x)) self, sent self csrf w))
  /\ (forall c, count_of self d = Return (JNum c) ->
        0 <= c < 200 * 2 ^ 46 ->
        _page_loader (S fuel) self w
        = Some (Return d, set_total (Some (ceil_div c PAGE_SIZE)) self, sent self csrf w))
  /\ (forall c, count_of self d = Return (JNum c) ->
        Py.true_divide c PAGE_SIZE = None ->
        _page_loader (S fuel) self w
        = Some (Raise OverflowError, self, sent self csrf w))
  /\ (forall e, count_of self d = Raise e ->
        _page_loader (S fuel) self w
        = Some (Return d, set_total (Some 0) self, sent self csrf w))
  /\ (forall c, count_of self d = Return c ->
        pages_of_count c = Raise TypeError ->
        _page_loader (S fuel) self w
        = Some (Return d, set_total (Some 0) self, sent self csrf w)).
Proof.
  intros Hcsrf Hans Hdata.
  assert (Hy : forall t, estimate self d = t ->
             count_pages self d <> Raise OverflowError ->
             _page_loader (S fuel) self w
             = Some (Return d, set_total (Some t) self, sent self csrf w)).
  { intros t <- Hfits. now apply loader_yield with (body := body). }
  split; [|split; [|split; [|split]]].
  - intros c x Hc Hx. apply Hy.
    + unfold estimate. rewrite count_pages_of, Hc. cbn [bind pages_of_count].
      now rewrite Hx.
    + rewrite count_pages_of, Hc. cbn [bind pages_of_count]. now rewrite Hx.
  - intros c Hc Hr. apply Hy.
    + unfold estimate. rewrite count_pages_of, Hc. cbn [bind].
      now rewrite (pages_of_count_small c Hr).
    + rewrite count_pages_of, Hc. cbn [bind].
      now rewrite (pages_of_count_small c Hr).
  - intros c Hc Hx. apply loader_overflow with (body := body) (d := d); auto.
    rewrite count_pages_of, Hc. cbn [bind pages_of_count]. now rewrite Hx.
  - intros e Hc. apply Hy.
    + unfold estimate. now rewrite count_pages_of, Hc.
    + rewrite count_pages_of, Hc. cbn [bind]. intros [= He]. subst e.
      unfold count_of, bind in Hc.
      destruct (Py.getitem d (section_generic self)) as [g|e1] eqn:E1;
        [|injection Hc as Hc; subst e1; now pose proof (getitem_raises _ _ _ E1)].
      destruct (Py.getitem g (section_media self)) as [m|e2] eqn:E2;
        [|injection Hc as Hc; subst e2; now pose proof (getitem_raises _ _ _ E2)].
      now pose proof (getitem_raises _ _ _ Hc).
  - intros c Hc Hp. apply Hy.
    + unfold estimate. now rewrite count_pages_of, Hc; cbn [bind]; rewrite Hp.
    + rewrite count_pages_of, Hc. cbn [bind]. now rewrite Hp.
Qed.

Lemma C4_witness :
  _page_loader 1 Sample.second Sample.recount_world
  = Some (Return (JObj [("user", generic_of Sample.second Sample.other_count_page)]),
          set_total (Some (ceil_div 1000 PAGE_SIZE)) Sample.second,
          sent Sample.second "token" Sample.recount_world).
Proof.
  refine (proj1 (proj2 (C4_estimate_is_set_by_every_fetch 0 Sample.second
                          Sample.recount_world "token" Sample.other_count_page
                          (JObj [("user", generic_of Sample.second Sample.other_count_page)])
                          _ _ _)) 1000 _ _).
  - vm_compute; reflexivity.
  - vm_compute; reflexivity.
  - vm_compute; reflexivity.
  - vm_compute; reflexivity.
  - vm_compute. split; [discriminate | reflexivity].
Defined.

(** C5, as stated, fails: after a malformed response, a response with all
    the fields of a last page, whose count is too large for the division
    by the page size, does not reach the caller; [OverflowError] does. *)
Lemma C5_counterexample :
  missing_key (Return (JObj [])) = true
  /\ page Sample.fresh Sample.huge_page
     = Return {| f_generic := generic_of Sample.fresh Sample.huge_page;
                 f_has_next_page := JBool false;
                 f_edges := JArr [Sample.edge 3];
                 f_end_cursor := JNull |}
  /\ __next__ 2 Sample.fresh (Sample.scripted [Return (JObj []); Return Sample.huge_page])
     = Some (Raise OverflowError,
             set_data_it Closed (set_total (Some 0) Sample.fresh),
             settled 1 Sample.fresh "token"
               (Sample.scripted [Return (JObj []); Return Sample.huge_page])).
Proof. split; [|split]; vm_compute; reflexivity. Qed.

(** C5, amended.  When [n] attempts in a row end in a missing key and the
    next one brings a page with its fields, whose count is not too large
    for the division by the page size, and which announces no next page
    or holds edges, [__next__] returns that page's generic section and
    raises nothing: the loader has issued the same request [n + 1] times
    and slept 10 seconds after each failure. *)
Theorem C5_missing_key_is_retried
  (n fuel : nat) (self : PageIterator) (w : World) (csrf : string)
  (body : json) (f : Fields) :
  _finished self = false ->
  _data_it self = Suspended ->
  Headers.get "X-CSRFToken" (headers (session w)) = Some csrf ->
  (forall i, (i < n)%nat ->
     missing_key
       (remote w (List.length (requests w) + i)
          (page_request self csrf (headers (session w)) (_cursor self))) = true) ->
  remote w (List.length (requests w) + n)
    (page_request self csrf (headers (session w)) (_cursor self)) = Return body ->
  page self body = Return f ->
  count_fits self body ->
  Py.truthy (f_has_next_page f) = false \/ Py.truthy (f_edges f) = true ->
  (n < fuel)%nat ->
  exists self' w',
    __next__ fuel self w = Some (Return (f_generic f), self', w')
    /\ requests w'
       = (requests w
          ++ repeat (page_request self csrf (headers (session w)) (_cursor self)) (S n))%list
    /\ slept w' = slept w + 10 * Z.of_nat n.
Proof.
  intros Hfin Hgen Hcsrf Hmiss Hans Hpage Hfits Hshape Hfuel.
  destruct (page_inv _ _ _ Hpage) as (d & Hdata & Hf).
  pose proof (loader_retries n fuel self w csrf body d Hcsrf Hmiss Hans Hdata
                (Hfits d Hdata) Hfuel) as Hl.
  assert (Hnext : next_data_it fuel self w
                  = Some (Return d, set_total (Some (estimate self d)) self,
                          settled n self csrf w))
    by (unfold next_data_it; now rewrite Hgen, Hl).
  assert (Hf1 : fields (set_total (Some (estimate self d)) self) d = Return f)
    by (rewrite <- Hf; now apply fields_cls).
  destruct (Py.truthy (f_has_next_page f)) eqn:Hn.
  - destruct Hshape as [|He]; [discriminate|].
    eexists _, _. split; [eapply next_more; eauto|]. split; reflexivity.
  - eexists _, _. split; [eapply next_last; eauto|]. split; reflexivity.
Qed.

Lemma C5_witness :
  exists self' w',
    __next__ 2 Sample.fresh (Sample.scripted [Return (JObj []); Return Sample.last_page])
    = Some (Return (generic_of Sample.fresh Sample.last_page), self', w')
    /\ requests w'
       = repeat (page_request Sample.fresh "token" [("X-CSRFToken", "token")] JNull) 2
    /\ slept w' = 10.
Proof.
  refine (C5_missing_key_is_retried 1 2 Sample.fresh
            (Sample.scripted [Return (JObj []); Return Sample.last_page]) "token"
            Sample.last_page
            {| f_generic := generic_of Sample.fresh Sample.last_page;
               f_has_next_page := JBool false;
               f_edges := JArr [Sample.edge 3];
               f_end_cursor := JNull |} _ _ _ _ _ _ _ _ _).
  - reflexivity.
  - reflexivity.
  - reflexivity.
  - intros i Hi. destruct i as [|i]; [reflexivity | lia].
  - reflexivity.
  - vm_compute; reflexivity.
  - count_fits_here.
  - left; reflexivity.
  - lia.
Defined.

(** ** The finished iterator *)

(** A finished iterator has an estimate: the loader sets one before it
    yields the page on which [__next__] finishes. *)
Lemma next_total fuel self w r self' w' :
  __next__ fuel self w = Some (r, self', w') ->
  (_finished self = true -> _total self <> None) ->
  _finished self' = true -> _total self' <> None.
Proof.
  unfold __next__, next_data_it.
  destruct (_finished self) eqn:Hfin; [intros [= <- <- <-]; auto|].
  destruct (_data_it self); [|intros [= <- <- <-] _; cbn; congruence].
  destruct (_page_loader fuel self w) as [[[[d|e] self1] w1]|] eqn:El; [| |discriminate];
    apply loader_keeps in El;
    destruct El as (_ & Hf & _ & _ & _ & _ & _ & Ht).
  - specialize (Ht d eq_refl).
    branches; intros [= <- <- <-] _; cbn; auto; congruence.
  - intros [= <- <- <-] _. cbn. congruence.
Qed.

Lemma hint_total fuel self w r self' w' :
  __length_hint__ fuel self w = Some (r, self', w') ->
  (_finished self = true -> _total self <> None) ->
  _finished self' = true -> _total self' <> None.
Proof.
  unfold __length_hint__, next_data_it.
  destruct (_total self) eqn:Htot; [intros [= <- <- <-] _ _; congruence|].
  intros H Hinv.
  assert (Hfin : _finished self = false)
    by (destruct (_finished self); [exfalso; exact (Hinv eq_refl eq_refl) | reflexivity]).
  revert H. destruct (_data_it self).
  - destruct (_page_loader fuel self w) as [[[[d|e] self1] w1]|] eqn:El; [| |discriminate];
      apply loader_keeps in El;
      destruct El as (_ & Hf & _ & _ & _ & _ & _ & Ht);
      branches; intros [= <- <- <-]; cbn; congruence.
  - cbn. intros [= <- <- <-]. cbn. congruence.
Qed.

Lemma reachable_total self :
  reachable self -> _finished self = true -> _total self <> None.
Proof.
  induction 1 as [c r | fuel self w r self' w' _ IH H | fuel self w r self' w' _ IH H].
  - discriminate.
  - exact (next_total _ _ _ _ _ _ H IH).
  - exact (hint_total _ _ _ _ _ _ H IH).
Qed.

(** C6.  In a finished iterator, [__next__] raises [StopIteration] and
    [__length_hint__] returns the estimate, and both leave the iterator
    and the world as they are: no request goes out, and the iterator
    stays finished. *)
Theorem C6_finished_iterator_fetches_nothing
  (self : PageIterator) (fuel : nat) (w : World) :
  reachable self ->
  _finished self = true ->
  __next__ fuel self w = Some (Raise StopIteration, self, w)
  /\ exists t, __length_hint__ fuel self w = Some (Return t, self, w).
Proof.
  intros Hr Hfin. split; [now apply next_finished|].
  destruct (_total self) as [t|] eqn:Ht.
  - exists t. now apply hint_is_total.
  - now destruct (reachable_total _ Hr Hfin).
Qed.

Lemma C6_witness :
  __next__ 0 (set_finished true (set_total (Some 2) Sample.fresh))
    (sent Sample.fresh "token" (Sample.scripted [Return Sample.last_page]))
  = Some (Raise StopIteration,
          set_finished true (set_total (Some 2) Sample.fresh),
          sent Sample.fresh "token" (Sample.scripted [Return Sample.last_page]))
  /\ exists t,
       __length_hint__ 0 (set_finished true (set_total (Some 2) Sample.fresh))
         (sent Sample.fresh "token" (Sample.scripted [Return Sample.last_page]))
       = Some (Return t,
               set_finished true (set_total (Some 2) Sample.fresh),
               sent Sample.fresh "token" (Sample.scripted [Return Sample.last_page])).
Proof.
  apply C6_finished_iterator_fetches_nothing.
  - apply (reach_next 1 Sample.fresh (Sample.scripted [Return Sample.last_page])
             (Return (generic_of Sample.fresh Sample.last_page)) _
             (sent Sample.fresh "token" (Sample.scripted [Return Sample.last_page]))).
    + apply reach_init.
    + vm_compute; reflexivity.
  - reflexivity.
Defined.

(** ** The signature of the requests *)

(** C7.  Every request a resumption of the page loader issues carries,
    under [x-instagram-gis], the MD5 digest, in lowercase hexadecimal, of
    the session token, the CSRF token of the session and the compact JSON
    of the query parameters, joined by colons; the header is on the
    session when the request goes out, and the same JSON is the
    [variables] of the request's URL. *)
Theorem C7_every_request_is_signed (fuel : nat) :
  forall (self : PageIterator) (w : World) (r : result json)
         (self' : PageIterator) (w' : World),
  _page_loader fuel self w = Some (r, self', w') ->
  exists new,
    requests w' = (requests w ++ new)%list /\ Forall (signed self) new.
Proof.
  induction fuel as [|fuel IH]; intros self w r self' w' H; [discriminate|].
  destruct (Headers.get "X-CSRFToken" (headers (session w))) as [csrf|] eqn:Hcsrf.
  - rewrite (loader_turn _ _ _ _ Hcsrf) in H.
    assert (Hrq : signed self (page_request self csrf (headers (session w)) (_cursor self))).
    { exists csrf, (gis self csrf (_cursor self)).
      cbn [page_request req_headers req_url].
      rewrite csrf_after_signing, get_set_same.
      repeat split; auto. apply md5_hexdigest_shape. }
    assert (Hstop : exists new,
               requests (sent self csrf w) = (requests w ++ new)%list
               /\ Forall (signed self) new)
      by (eexists; split; [reflexivity | now constructor]).
    assert (Hloop : forall self1,
               cls self1 = cls self -> rhx self1 = rhx self ->
               _cursor self1 = _cursor self ->
               _page_loader fuel self1 (sleep 10 (sent self csrf w)) = Some (r, self', w') ->
               exists new, requests w' = (requests w ++ new)%list
                           /\ Forall (signed self) new).
    { intros self1 Hc Hx Hu Hl. apply IH in Hl. destruct Hl as (new & Hreq & Hall).
      eexists (_ :: new). split.
      - rewrite Hreq. cbn [requests sleep sent]. now rewrite <- app_assoc.
      - constructor; [exact Hrq|].
        unfold signed, URL, _getparams in *. now rewrite Hc, Hx, Hu in Hall. }
    destruct (answer self csrf w) as [data|e].
    + unfold bind in H. cbn zeta in H.
      destruct (Py.getitem data "data") as [d|e];
        repeat match type of H with
               | context [match count_pages ?a ?b with _ => _ end] =>
                   destruct (count_pages a b)
               | context [if ?b then _ else _] => destruct b
               end;
        try (injection H as <- <- <-; exact Hstop);
        eapply Hloop; try exact H; reflexivity.
    + destruct (is_KeyError e).
      * eapply Hloop; try exact H; reflexivity.
      * injection H as <- <- <-. exact Hstop.
  - cbn [_page_loader] in H. rewrite Hcsrf in H.
    apply IH in H. exact H.
Qed.

Lemma C7_witness :
  exists new,
    requests (sent Sample.fresh "token" (Sample.scripted [Return Sample.first_page]))
    = new /\ Forall (signed Sample.fresh) new.
Proof.
  apply (C7_every_request_is_signed 1 Sample.fresh
           (Sample.scripted [Return Sample.first_page])
           (Return (JObj [("user", generic_of Sample.fresh Sample.first_page)]))
           (set_total (Some 2) Sample.fresh)).
  vm_compute; reflexivity.
Defined.

(** ** Profile resolution *)

Ltac chain_inv H :=
  unfold bind in H;
  repeat match type of H with
         | context [match Py.getitem ?v ?k with _ => _ end] =>
             let E := fresh "E" in
             destruct (Py.getitem v k) eqn:E; [|discriminate H]
         | context [match Py.getitem0 ?v with _ => _ end] =>
             let E := fresh "E" in
             destruct (Py.getitem0 v) eqn:E; [|discriminate H]
         end.

Lemma from_username_resolved username w user_data data is_private id rhx0 :
  remote w (List.length (requests w)) (profile_request username w) = Return user_data ->
  profile_user user_data = Return data ->
  Py.getitem data "is_private" = Return is_private ->
  Py.getitem data "id" = Return id ->
  Py.getitem user_data "rhx_gis" = Return rhx0 ->
  from_username username w
  = (if Py.truthy is_private
     then
       match Py.getitem data "followed_by_viewer" with
       | Raise e => Raise e
       | Return followed_by_viewer =>
           if Py.truthy followed_by_viewer
              || Py.eq_opt_text (cookie_value "ds_user_id" (cookies (session (visited username w)))) id
           then Return (__init__ (ProfileIterator id) rhx0)
           else Raise (RuntimeError ("user '" ++ username ++ "' is private"))
       end
     else Return (__init__ (ProfileIterator id) rhx0),
     visited username w).
Proof.
  intros Hans Hdata Hp Hid Hrhx.
  unfold from_username, _user_data, session_get.
  change {| req_url := "https://www.instagram.com/" ++ username ++ "/";
            req_headers := headers (session w) |}
    with (profile_request username w).
  rewrite Hans. unfold profile_user in Hdata. chain_inv Hdata.
  unfold bind. rewrite_getitems. rewrite E1. rewrite_getitems.
  cbn [session]. fold (visited username w). f_equal.
  destruct (Py.truthy is_private); [|reflexivity].
  destruct (Py.getitem data "followed_by_viewer") as [fbv|e]; [|reflexivity].
  destruct (Py.truthy fbv); cbn [negb orb]; [reflexivity|].
  destruct (Py.eq_opt_text _ id); reflexivity.
Qed.

(** [connected_id != data['id']] is false in two cases: the cookie is
    there and the id is the same text, or there is no cookie and the id is
    [null]. *)
Lemma eq_opt_text_spec (o : option string) (id : json) :
  Py.eq_opt_text o id = true
  <-> (exists s, o = Some s /\ id = JStr s) \/ (o = None /\ id = JNull).
Proof.
  destruct o as [s|]; destruct id; cbn [Py.eq_opt_text];
    try (split; [discriminate | intros [(s0 & [=] & [=]) | ([=] & [=])]]).
  - split.
    + intros E. apply String.eqb_eq in E. subst. left. eauto.
    + intros [(s1 & [= <-] & [= <-]) | ([=] & _)]. apply String.eqb_refl.
  - split; [intros _; right; auto | reflexivity].
Qed.

(** C8, as stated, fails: a private account that the viewer follows is
    resolved although the jar holds no identity cookie. *)
Lemma C8_counterexample :
  (data <- profile_user (Sample.shared (JStr "7") true true) ;;
   Py.getitem data "is_private") = Return (JBool true)
  /\ cookie_value "ds_user_id"
       (cookies (session (visited "alice" Sample.followed_world))) = None
  /\ from_username "alice" Sample.followed_world
     = (Return (__init__ (ProfileIterator (JStr "7")) (JStr "rhx")),
        visited "alice" Sample.followed_world).
Proof. split; [|split]; reflexivity. Qed.

(** C8, amended.  When the shared data of the handle's page holds the
    user object with its id and privacy flag, and the session token:
    a public account is resolved whatever the cookies; a private account
    that the viewer follows is resolved whatever the cookies; a private
    account that the viewer does not follow is resolved in two cases, when
    the first [ds_user_id] cookie of the jar, as it is once the response
    is in, and the owner id are the same text, and when the jar holds no
    such cookie and the owner id is [null]; in every other case
    [RuntimeError] is raised with a message that names the handle, which
    is not the [ValueError] of an account not found. *)
Theorem C8_private_account_needs_follower_or_owner
  (username : string) (w : World) (user_data data is_private id rhx0 : json) :
  remote w (List.length (requests w)) (profile_request username w) = Return user_data ->
  profile_user user_data = Return data ->
  Py.getitem data "is_private" = Return is_private ->
  Py.getitem data "id" = Return id ->
  Py.getitem user_data "rhx_gis" = Return rhx0 ->
  (Py.truthy is_private = false ->
   from_username username w
   = (Return (__init__ (ProfileIterator id) rhx0), visited username w))
  /\ (forall followed_by_viewer,
        Py.truthy is_private = true ->
        Py.getitem data "followed_by_viewer" = Return followed_by_viewer ->
        (Py.truthy followed_by_viewer = true ->
         from_username username w
         = (Return (__init__ (ProfileIterator id) rhx0), visited username w))
        /\ (Py.truthy followed_by_viewer = false ->
            ((exists s, cookie_value "ds_user_id" (cookies (session (visited username w)))
                        = Some s /\ id = JStr s)
             \/ (cookie_value "ds_user_id" (cookies (session (visited username w))) = None
                 /\ id = JNull) ->
             from_username username w
             = (Return (__init__ (ProfileIterator id) rhx0), visited username w))
            /\ (~ ((exists s, cookie_value "ds_user_id"
                                (cookies (session (visited username w))) = Some s
                              /\ id = JStr s)
                   \/ (cookie_value "ds_user_id" (cookies (session (visited username w)))
                       = None /\ id = JNull)) ->
                from_username username w
                = (Raise (RuntimeError ("user '" ++ username ++ "' is private")),
                   visited username w)))).
Proof.
  intros Hans Hdata Hp Hid Hrhx.
  rewrite (from_username_resolved _ _ _ _ _ _ _ Hans Hdata Hp Hid Hrhx).
  split; [intros -> ; reflexivity|].
  intros fbv -> ->. split; [intros ->; reflexivity|]. intros ->. cbn [orb].
  pose proof (eq_opt_text_spec
                (cookie_value "ds_user_id" (cookies (session (visited username w)))) id)
    as Hspec.
  destruct (Py.eq_opt_text _ id).
  - split; [reflexivity|]. intros Hn. exfalso. apply Hn. now apply Hspec.
  - split; [|reflexivity]. intros Hy. apply Hspec in Hy. discriminate.
Qed.

Lemma C8_witness :
  from_username "alice" Sample.stranger_world
  = (Raise (RuntimeError "user 'alice' is private"), visited "alice" Sample.stranger_world).
Proof.
  refine (proj2 (proj2 (proj2 (C8_private_account_needs_follower_or_owner "alice"
                                 Sample.stranger_world
                                 (Sample.shared (JStr "7") true false) _ (JBool true)
                                 (JStr "7") (JStr "rhx") _ _ _ _ _)
                          (JBool false) _ _) _) _).
  - reflexivity.
  - reflexivity.
  - reflexivity.
  - reflexivity.
  - reflexivity.
  - reflexivity.
  - reflexivity.
  - reflexivity.
  - intros H. vm_compute in H.
    destruct H as [(s & Hs & Hi) | (Hs & _)];
      [injection Hs as <-; discriminate Hi | discriminate Hs].
Defined.

(** The jar is read once the response is in: a profile response that
    sets the identity cookie of the owner opens a private account to a
    session that held no cookie before, and an account without id is
    open to a session without identity. *)
Example identity_cookie_of_the_response :
  cookie_value "ds_user_id" (cookies (session Sample.login_world)) = None
  /\ from_username "alice" Sample.login_world
     = (Return (__init__ (ProfileIterator (JStr "7")) (JStr "rhx")),
        visited "alice" Sample.login_world)
  /\ cookie_value "ds_user_id" (cookies (session (visited "alice" Sample.login_world)))
     = Some "7"
  /\ from_username "alice" Sample.nameless_world
     = (Return (__init__ (ProfileIterator JNull) (JStr "rhx")),
        visited "alice" Sample.nameless_world).
Proof. split; [|split; [|split]]; reflexivity. Qed.

(** Payload absent or malformed: [ValueError] with the handle. *)
Lemma account_not_found username w e :
  remote w (List.length (requests w)) (profile_request username w) = Raise e ->
  e = AttributeError \/ (exists msg, e = ValueError msg) ->
  from_username username w
  = (Raise (ValueError ("account not found: " ++ username)), visited username w).
Proof.
  intros Hans He. unfold from_username, _user_data, session_get.
  change {| req_url := "https://www.instagram.com/" ++ username ++ "/";
            req_headers := headers (session w) |}
    with (profile_request username w).
  rewrite Hans. destruct He as [-> | [msg ->]]; reflexivity.
Qed.

(** C9.  The shared data of the page served for a handle that does not
    exist has no [ProfilePage] entry: [from_username] raises [KeyError],
    not the [ValueError] of an account not found. *)
Theorem C9_missing_ProfilePage_raises_KeyError :
  from_username "ghost" Sample.ghost_world
  = (Raise (KeyError "ProfilePage"), visited "ghost" Sample.ghost_world).
Proof. reflexivity. Qed.

(** With an empty [ProfilePage] list it is [IndexError]. *)
Example empty_ProfilePage_raises_IndexError :
  from_username "ghost" Sample.hollow_world
  = (Raise IndexError, visited "ghost" Sample.hollow_world).
Proof. reflexivity. Qed.

(** ** The length hint and the page it fetches *)

(** C10, as stated, fails: against a remote end that answers by the
    cursor, the page that [__length_hint__] took for the estimate comes
    back.  The hint leaves the cursor where it was, the request that
    follows is the hint's request again, and [__next__] returns the
    generic section of the same page: nothing is skipped. *)
Lemma C10_counterexample :
  _total Sample.fresh = None
  /\ answer Sample.fresh "token" Sample.single_page_world = Return Sample.last_page
  /\ __length_hint__ 1 Sample.fresh Sample.single_page_world
     = Some (Return 2, set_total (Some 2) Sample.fresh,
             sent Sample.fresh "token" Sample.single_page_world)
  /\ __next__ 1 (set_total (Some 2) Sample.fresh)
       (sent Sample.fresh "token" Sample.single_page_world)
     = Some (Return (generic_of Sample.fresh Sample.last_page),
             set_finished true (set_total (Some 2) Sample.fresh),
             sent Sample.fresh "token" (sent Sample.fresh "token" Sample.single_page_world))
  /\ map req_url
       (requests (sent Sample.fresh "token"
                    (sent Sample.fresh "token" Sample.single_page_world)))
     = [url_of Sample.fresh JNull; url_of Sample.fresh JNull].
Proof. split; [|split; [|split; [|split]]]; vm_compute; reflexivity. Qed.

(** C10, amended.  When the estimate is unknown, [__length_hint__]
    resumes the generator that [__next__] reads from and takes the page it
    yields, a page fetched by one request, for the estimate alone: it
    returns the estimate less the pages done and moves neither cursor nor
    page index, and does not finish the iterator.  The call of [__next__]
    that follows issues the same request once more and returns the
    generic section of the page that answers this second request, be it
    the same page again or another one. *)
Theorem C10_length_hint_consumes_a_page
  (body body2 : json) (self : PageIterator) (w : World)
  (csrf : string) (fuel : nat) (d : json) (t : Z) (f2 : Fields) :
  _total self = None ->
  _finished self = false ->
  _data_it self = Suspended ->
  Headers.get "X-CSRFToken" (headers (session w)) = Some csrf ->
  remote w (List.length (requests w))
    (page_request self csrf (headers (session w)) (_cursor self)) = Return body ->
  Py.getitem body "data" = Return d ->
  count_pages self d = Return t ->
  remote w (S (List.length (requests w)))
    (page_request self csrf (headers (session w)) (_cursor self)) = Return body2 ->
  page self body2 = Return f2 ->
  count_fits self body2 ->
  Py.truthy (f_has_next_page f2) = false \/ Py.truthy (f_edges f2) = true ->
  exists self1 self2 w2,
    __length_hint__ (S fuel) self w
    = Some (Return (t - _done self), self1, sent self csrf w)
    /\ requests (sent self csrf w)
       = (requests w ++ [page_request self csrf (headers (session w)) (_cursor self)])%list
    /\ _cursor self1 = _cursor self
    /\ _current_page self1 = _current_page self
    /\ _finished self1 = false
    /\ __next__ (S fuel) self1 (sent self csrf w) = Some (Return (f_generic f2), self2, w2)
    /\ requests w2
       = (requests w ++ [page_request self csrf (headers (session w)) (_cursor self);
                         page_request self csrf (headers (session w)) (_cursor self)])%list.
Proof.
  intros Htot Hfin Hgen Hcsrf Hans Hdata Hcount Hans2 Hpage2 Hfits2 Hshape.
  assert (Hfits : count_pages self d <> Raise OverflowError) by (rewrite Hcount; discriminate).
  pose proof (gen_first fuel _ _ _ _ _ Hgen Hcsrf Hans Hdata Hfits) as Hnext.
  set (self1 := set_total (Some t) (set_total (Some (estimate self d)) self)).
  destruct (page_inv _ _ _ Hpage2) as (d2 & Hdata2 & Hf2).
  assert (Hcsrf1 : Headers.get "X-CSRFToken" (headers (session (sent self csrf w)))
                   = Some csrf)
    by (cbn [sent session headers]; now rewrite csrf_after_signing).
  assert (Hrq : page_request self1 csrf (headers (session (sent self csrf w))) (_cursor self1)
                = page_request self csrf (headers (session w)) (_cursor self))
    by (cbn [sent session headers];
        exact (page_request_signed self csrf _ (headers (session w)) (_cursor self))).
  assert (Hans1 : answer self1 csrf (sent self csrf w) = Return body2).
  { unfold answer. rewrite Hrq. cbn [sent remote requests].
    rewrite length_app, Nat.add_1_r. exact Hans2. }
  assert (Hfits1 : count_pages self1 d2 <> Raise OverflowError)
    by (apply (Hfits2 d2 Hdata2)).
  pose proof (gen_first fuel self1 (sent self csrf w) csrf body2 d2 Hgen Hcsrf1 Hans1
                Hdata2 Hfits1) as Hnext1.
  assert (Hf1 : fields (set_total (Some (estimate self1 d2)) self1) d2 = Return f2)
    by (rewrite <- Hf2; now apply fields_cls).
  assert (Hhint : __length_hint__ (S fuel) self w
                  = Some (Return (t - _done self), self1, sent self csrf w)).
  { unfold __length_hint__. rewrite Htot, Hnext.
    change (g <- Py.getitem d (section_generic (set_total (Some (estimate self d)) self)) ;;
            m <- Py.getitem g (section_media (set_total (Some (estimate self d)) self)) ;;
            c <- Py.getitem m "count" ;; pages_of_count c)
      with (count_pages self d).
    now rewrite Hcount. }
  assert (Hreqs : requests (sent self1 csrf (sent self csrf w))
                  = (requests w
                     ++ [page_request self csrf (headers (session w)) (_cursor self);
                         page_request self csrf (headers (session w)) (_cursor self)])%list).
  { cbn [sent requests] in *. rewrite Hrq, <- app_assoc. reflexivity. }
  assert (Hfin1 : _finished self1 = false) by exact Hfin.
  destruct (Py.truthy (f_has_next_page f2)) eqn:Hn.
  - destruct Hshape as [|He]; [discriminate|].
    exists self1, (advance (f_end_cursor f2) (set_total (Some (estimate self1 d2)) self1)),
      (sent self1 csrf (sent self csrf w)).
    split; [exact Hhint|]. split; [reflexivity|]. split; [reflexivity|].
    split; [reflexivity|]. split; [exact Hfin|]. split; [|exact Hreqs].
    now apply (next_more _ _ _ _ _ _ _ Hfin1 Hnext1 Hf1).
  - exists self1, (set_finished true (set_total (Some (estimate self1 d2)) self1)),
      (sent self1 csrf (sent self csrf w)).
    split; [exact Hhint|]. split; [reflexivity|]. split; [reflexivity|].
    split; [reflexivity|]. split; [exact Hfin|]. split; [|exact Hreqs].
    now apply (next_last _ _ _ _ _ _ _ Hfin1 Hnext1 Hf1).
Qed.

Lemma C10_witness :
  exists self1 self2 w2,
    __length_hint__ 1 Sample.fresh
      (Sample.scripted [Return Sample.first_page; Return Sample.last_page])
    = Some (Return (2 - 0), self1,
            sent Sample.fresh "token"
              (Sample.scripted [Return Sample.first_page; Return Sample.last_page]))
    /\ requests (sent Sample.fresh "token"
                   (Sample.scripted [Return Sample.first_page; Return Sample.last_page]))
       = [page_request Sample.fresh "token" [("X-CSRFToken", "token")] JNull]
    /\ _cursor self1 = JNull
    /\ _current_page self1 = 0
    /\ _finished self1 = false
    /\ __next__ 1 self1
         (sent Sample.fresh "token"
            (Sample.scripted [Return Sample.first_page; Return Sample.last_page]))
       = Some (Return (generic_of Sample.fresh Sample.last_page), self2, w2)
    /\ requests w2
       = [page_request Sample.fresh "token" [("X-CSRFToken", "token")] JNull;
          page_request Sample.fresh "token" [("X-CSRFToken", "token")] JNull].
Proof.
  apply (C10_length_hint_consumes_a_page Sample.first_page Sample.last_page
           Sample.fresh
           (Sample.scripted [Return Sample.first_page; Return Sample.last_page])
           "token" 0
           (JObj [("user", generic_of Sample.fresh Sample.first_page)]) 2
           {| f_generic := generic_of Sample.fresh Sample.last_page;
              f_has_next_page := JBool false;
              f_edges := JArr [Sample.edge 3];
              f_end_cursor := JNull |}).
  - reflexivity.
  - reflexivity.
  - reflexivity.
  - reflexivity.
  - reflexivity.
  - reflexivity.
  - vm_compute; reflexivity.
  - reflexivity.
  - vm_compute; reflexivity.
  - count_fits_here.
  - left; reflexivity.
Defined.

(** * Further properties *)

(** ** A resumption of the loader, read backwards *)

Lemma settled_O self csrf w : settled 0 self csrf w = sent self csrf w.
Proof.
  unfold settled, sent. cbn [session remote requests slept repeat].
  f_equal. change (Z.of_nat 0) with 0. lia.
Qed.

Lemma settled_S n self self1 csrf w :
  cls self1 = cls self -> rhx self1 = rhx self -> _cursor self1 = _cursor self ->
  settled n self1 csrf (sleep 10 (sent self csrf w)) = settled (S n) self csrf w.
Proof.
  intros Hcls Hrhx Hcur.
  assert (Hreq : forall h c, page_request self1 csrf h c = page_request self csrf h c).
  { intros h c. unfold page_request, gis, magic, URL, _getparams. now rewrite Hcls, Hrhx. }
  unfold settled, sent, sleep;
    cbn [session remote received requests slept headers cookies].
  rewrite Hcur, !Hreq, page_request_signed, <- app_assoc.
  rewrite length_app, Nat.add_1_r.
  f_equal; [| rewrite Nat2Z.inj_succ; lia].
  f_equal. unfold gis, magic, _getparams. rewrite Hcls, Hrhx. apply set_set.
Qed.

Lemma loader_fail_transport fuel self w csrf e :
  Headers.get "X-CSRFToken" (headers (session w)) = Some csrf ->
  answer self csrf w = Raise e ->
  is_KeyError e = false ->
  _page_loader (S fuel) self w = Some (Raise e, self, sent self csrf w).
Proof.
  intros Hcsrf Hans He. rewrite (loader_turn _ _ _ _ Hcsrf), Hans. now rewrite He.
Qed.

Lemma loader_fail_body fuel self w csrf body e :
  Headers.get "X-CSRFToken" (headers (session w)) = Some csrf ->
  answer self csrf w = Return body ->
  Py.getitem body "data" = Raise e ->
  is_KeyError e = false ->
  _page_loader (S fuel) self w
  = Some (Raise e, set_total (Some 0) self, sent self csrf w).
Proof.
  intros Hcsrf Hans Hdata He.
  rewrite (loader_turn _ _ _ _ Hcsrf), Hans. unfold bind. rewrite Hdata.
  rewrite (getitem_raises _ _ _ Hdata). cbn zeta. now rewrite He.
Qed.

Lemma retried_same self res :
  cls (retried self res) = cls self /\ rhx (retried self res) = rhx self
  /\ _cursor (retried self res) = _cursor self
  /\ (retried self res = self \/ retried self res = set_total (Some 0) self).
Proof. destruct res; cbn; auto. Qed.

Lemma overflow_or_not self d :
  count_pages self d = Raise OverflowError \/ count_pages self d <> Raise OverflowError.
Proof.
  destruct (count_pages self d) as [t|e]; [right; discriminate|].
  destruct e; solve [left; reflexivity | right; discriminate].
Qed.

(** What a resumption that came back has done: [n] attempts that ended in
    a missing key, then one that either brought the data it yields or
    raised the exception that leaves the generator. *)
Lemma loader_trace fuel : forall self w csrf r self' w',
  Headers.get "X-CSRFToken" (headers (session w)) = Some csrf ->
  _page_loader fuel self w = Some (r, self', w') ->
  exists n,
    w' = settled n self csrf w
    /\ (forall i, (i < n)%nat ->
          missing_key
            (remote w (List.length (requests w) + i)
               (page_request self csrf (headers (session w)) (_cursor self))) = true)
    /\ match r with
       | Return d =>
           exists body,
             remote w (List.length (requests w) + n)
               (page_request self csrf (headers (session w)) (_cursor self))
             = Return body
             /\ Py.getitem body "data" = Return d
             /\ self' = set_total (Some (estimate self d)) self
             /\ count_pages self d <> Raise OverflowError
       | Raise e =>
           is_KeyError e = false
           /\ (self' = self \/ self' = set_total (Some 0) self)
           /\ (remote w (List.length (requests w) + n)
                 (page_request self csrf (headers (session w)) (_cursor self))
               = Raise e
               \/ (exists body,
                     remote w (List.length (requests w) + n)
                       (page_request self csrf (headers (session w)) (_cursor self))
                     = Return body
                     /\ Py.getitem body "data" = Raise e
                     /\ self' = set_total (Some 0) self)
               \/ (exists body d,
                     remote w (List.length (requests w) + n)
                       (page_request self csrf (headers (session w)) (_cursor self))
                     = Return body
                     /\ Py.getitem body "data" = Return d
                     /\ count_pages self d = Raise OverflowError
                     /\ e = OverflowError))
       end.
Proof.
  induction fuel as [|fuel IH]; intros self w csrf r self' w' Hcsrf H; [discriminate|].
  destruct (missing_key (answer self csrf w)) eqn:Hmiss.
  - rewrite (loader_retry _ _ _ _ Hcsrf Hmiss) in H.
    destruct (retried_same self (answer self csrf w)) as (Hcls & Hrhx & Hcur & Hst).
    set (self1 := retried self (answer self csrf w)) in *.
    assert (Hcsrf1 : Headers.get "X-CSRFToken"
                       (headers (session (sleep 10 (sent self csrf w)))) = Some csrf)
      by (simpl; now rewrite csrf_after_signing).
    destruct (IH _ _ _ _ _ _ Hcsrf1 H) as (n & Hw & Hfail & Hlast).
    assert (Hreq : page_request self1 csrf
                     (headers (session (sleep 10 (sent self csrf w)))) (_cursor self1)
                   = page_request self csrf (headers (session w)) (_cursor self)).
    { simpl. rewrite Hcur, page_request_signed.
      unfold page_request, gis, magic, URL, _getparams. now rewrite Hcls, Hrhx. }
    assert (Hlen : forall i,
               (List.length (requests (sleep 10 (sent self csrf w))) + i
                = List.length (requests w) + S i)%nat)
      by (intros i; simpl; rewrite length_app; simpl; lia).
    rewrite Hreq in Hfail, Hlast.
    change (remote (sleep 10 (sent self csrf w))) with (remote w) in Hfail, Hlast.
    exists (S n). split; [|split].
    + rewrite Hw. now apply settled_S.
    + intros [|i] Hi.
      * rewrite Nat.add_0_r. exact Hmiss.
      * rewrite <- Hlen. apply Hfail. lia.
    + assert (Hcount : forall d, count_pages self1 d = count_pages self d)
        by (intros d0; unfold count_pages, section_generic, section_media;
            now rewrite Hcls).
      rewrite <- Hlen. destruct r as [d|e].
      * destruct Hlast as (body & Hb & Hd & Hs & Hc). exists body.
        split; [exact Hb|]. split; [exact Hd|]. split; [|now rewrite <- Hcount].
        rewrite Hs. unfold self1. destruct (answer self csrf w); reflexivity.
      * destruct Hlast as (He & Hs & Hb). split; [exact He|]. split.
        -- destruct Hs as [-> | ->]; [exact Hst|]. right.
           unfold self1. destruct (answer self csrf w); reflexivity.
        -- destruct Hb as [Hb | [(body & Hb & Hd & Hs') | (body & d & Hb & Hd & Hc & Hov)]];
             [now left | |].
           ++ right. left. exists body. repeat split; auto.
              rewrite Hs'. unfold self1. destruct (answer self csrf w); reflexivity.
           ++ right. right. exists body, d. rewrite <- Hcount. auto.
  - exists O. rewrite settled_O, Nat.add_0_r. fold (answer self csrf w).
    split; [|split; [intros i Hi; lia|]].
    + destruct (answer self csrf w) as [body|e] eqn:Ha; simpl in Hmiss.
      * destruct (Py.getitem body "data") as [d|e] eqn:Ed.
        -- destruct (overflow_or_not self d) as [Hov | Hfits].
           ++ rewrite (loader_overflow _ _ _ _ _ _ Hcsrf Ha Ed Hov) in H.
              now injection H as <- <- <-.
           ++ rewrite (loader_yield _ _ _ _ _ _ Hcsrf Ha Ed Hfits) in H.
              now injection H as <- <- <-.
        -- rewrite (loader_fail_body _ _ _ _ _ _ Hcsrf Ha Ed Hmiss) in H.
           now injection H as <- <- <-.
      * rewrite (loader_fail_transport _ _ _ _ _ Hcsrf Ha Hmiss) in H.
        now injection H as <- <- <-.
    + destruct (answer self csrf w) as [body|e] eqn:Ha; simpl in Hmiss.
      * destruct (Py.getitem body "data") as [d|e] eqn:Ed.
        -- destruct (overflow_or_not self d) as [Hov | Hfits].
           ++ rewrite (loader_overflow _ _ _ _ _ _ Hcsrf Ha Ed Hov) in H.
              injection H as <- <- <-. split; [reflexivity|]. split; [now left|].
              right. right. exists body, d. auto.
           ++ rewrite (loader_yield _ _ _ _ _ _ Hcsrf Ha Ed Hfits) in H.
              injection H as <- <- <-. exists body. auto.
        -- rewrite (loader_fail_body _ _ _ _ _ _ Hcsrf Ha Ed Hmiss) in H.
           injection H as <- <- <-. split; [exact Hmiss|]. split; [now right|].
           right. left. exists body. auto.
      * rewrite (loader_fail_transport _ _ _ _ _ Hcsrf Ha Hmiss) in H.
        injection H as <- <- <-. split; [exact Hmiss|]. split; [now left | now left].
Qed.

Lemma loader_needs_csrf fuel self w r self' w' :
  _page_loader fuel self w = Some (r, self', w') ->
  exists csrf, Headers.get "X-CSRFToken" (headers (session w)) = Some csrf.
Proof.
  intros H. destruct (Headers.get "X-CSRFToken" (headers (session w))) as [csrf|] eqn:E.
  - now exists csrf.
  - now rewrite (loader_without_csrf fuel self w E) in H.
Qed.

(** Of the iterator, a resumption of the loader changes the estimate
    alone. *)
Lemma loader_only_total fuel self w r self' w' :
  _page_loader fuel self w = Some (r, self', w') ->
  exists t, self' = set_total t self.
Proof.
  intros H. destruct (loader_needs_csrf _ _ _ _ _ _ H) as (csrf & Hcsrf).
  destruct (loader_trace _ _ _ _ _ _ _ Hcsrf H) as (n & _ & _ & Hlast).
  destruct r as [d|e].
  - destruct Hlast as (body & _ & _ & -> & _). eauto.
  - destruct Hlast as (_ & [-> | ->] & _); [|eauto].
    exists (_total self). now destruct self.
Qed.

Lemma gen_only_total fuel self w d self1 w1 :
  next_data_it fuel self w = Some (Return d, self1, w1) ->
  exists t, self1 = set_total t self.
Proof.
  unfold next_data_it. destruct (_data_it self); [|discriminate].
  destruct (_page_loader fuel self w) as [[[[d0|e0] s0] w0]|] eqn:El; try discriminate.
  intros [= <- <- <-]. exact (loader_only_total _ _ _ _ _ _ El).
Qed.

(** ** The outcomes of a call, case by case *)

Ltac on_getitem :=
  match goal with
  | |- context [match Py.getitem ?a ?b with _ => _ end] =>
      let E := fresh "E" in destruct (Py.getitem a b) eqn:E
  end.

Ltac ends := left; split; reflexivity.
Ltac raises := right; left; eexists; split; reflexivity.

Lemma next_cases fuel self w r self' w' :
  __next__ fuel self w = Some (r, self', w') ->
  (_finished self = true /\ r = Raise StopIteration /\ self' = self /\ w' = w)
  \/ (_finished self = false /\ _data_it self = Closed
      /\ r = Raise StopIteration /\ self' = self /\ w' = w)
  \/ (_finished self = false /\ _data_it self = Suspended
      /\ exists e self1,
           _page_loader fuel self w = Some (Raise e, self1, w')
           /\ r = Raise (if is_StopIteration e
                         then RuntimeError "generator raised StopIteration" else e)
           /\ self' = set_data_it Closed self1)
  \/ (_finished self = false /\ _data_it self = Suspended
      /\ exists d self1,
           _page_loader fuel self w = Some (Return d, self1, w')
           /\ ((r = Raise StopIteration /\ self' = set_finished true self1)
               \/ (exists e, r = Raise e /\ self' = self1)
               \/ (exists v, r = Return v
                   /\ Py.getitem d (section_generic self1) = Return v
                   /\ self' = set_finished true self1)
               \/ (exists f, r = Return (f_generic f)
                   /\ fields self1 d = Return f
                   /\ Py.truthy (f_has_next_page f) = true
                   /\ Py.truthy (f_edges f) = true
                   /\ self' = advance (f_end_cursor f) self1))).
Proof.
  unfold __next__, next_data_it.
  destruct (_finished self) eqn:Hfin; [intros [= <- <- <-]; auto|].
  destruct (_data_it self) eqn:Hgen; [|intros [= <- <- <-]; right; left; auto].
  destruct (_page_loader fuel self w) as [[[[d|e] self1] w1]|] eqn:El; [| |discriminate].
  - intros H. do 3 right. repeat split; auto. exists d, self1.
    assert (Hw : w1 = w').
    { revert H. branches; now intros [= _ _ <-]. }
    subst w1. split; [reflexivity|].
    revert H. unfold fields, bind.
    on_getitem;
      [|destruct (is_TypeError e || is_KeyError e); intros [= <- <-]; [ends | raises]].
    on_getitem;
      [|destruct (is_TypeError e || is_KeyError e); intros [= <- <-]; [ends | raises]].
    on_getitem; [|intros [= <- <-]; raises].
    on_getitem; [|intros [= <- <-]; raises].
    destruct (Py.truthy a2) eqn:Hn; cbn [negb];
      [|intros [= <- <-]; right; right; left; eexists; repeat split; reflexivity].
    on_getitem; [|intros [= <- <-]; raises].
    destruct (Py.truthy a3) eqn:He; cbn [negb]; [|intros [= <- <-]; ends].
    on_getitem; [|intros [= <- <-]; raises].
    change (section_generic (advance a4 self1)) with (section_generic self1).
    rewrite E. intros [= <- <-]. do 3 right.
    exists {| f_generic := a; f_has_next_page := a2; f_edges := a3; f_end_cursor := a4 |}.
    repeat split; assumption.
  - intros [= <- <- <-]. right. right. left. repeat split; auto. now exists e, self1.
Qed.

Lemma hint_cases fuel self w r self' w' :
  __length_hint__ fuel self w = Some (r, self', w') ->
  (exists t, _total self = Some t /\ r = Return (t - _done self)
             /\ self' = self /\ w' = w)
  \/ (_total self = None /\ _data_it self = Closed
      /\ r = Return (0 - _done self) /\ self' = set_total (Some 0) self /\ w' = w)
  \/ (_total self = None /\ _data_it self = Suspended
      /\ exists e self1,
           _page_loader fuel self w = Some (Raise e, self1, w')
           /\ ((r = Return (0 - _done self1)
                /\ self' = set_total (Some 0) (set_data_it Closed self1))
               \/ (exists e', r = Raise e' /\ self' = set_data_it Closed self1)))
  \/ (_total self = None /\ _data_it self = Suspended
      /\ exists d self1,
           _page_loader fuel self w = Some (Return d, self1, w')
           /\ ((exists t, count_pages self1 d = Return t
                          /\ r = Return (t - _done self1)
                          /\ self' = set_total (Some t) self1)
               \/ (r = Return (0 - _done self1) /\ count_pages self1 d = Raise TypeError
                   /\ self' = set_total (Some 0) self1)
               \/ (exists k, r = Raise (KeyError k)
                   /\ count_pages self1 d = Raise (KeyError k) /\ self' = self1))).
Proof.
  unfold __length_hint__, next_data_it, total_minus_done.
  destruct (_total self) as [t|] eqn:Htot; [intros [= <- <- <-]; left; eauto|].
  destruct (_data_it self) eqn:Hgen.
  - destruct (_page_loader fuel self w) as [[[[d|e] self1] w1]|] eqn:El; [| |discriminate].
    + fold (count_pages self1 d).
      destruct (count_pages self1 d) as [t|e] eqn:Ec.
      * cbn. intros [= <- <- <-]. do 3 right. repeat split; auto.
        exists d, self1. split; [reflexivity|]. left. eauto.
      * assert (Hfits : e <> OverflowError).
        { intros ->. destruct (loader_needs_csrf _ _ _ _ _ _ El) as (csrf & Hcsrf).
          destruct (loader_trace _ _ _ _ _ _ _ Hcsrf El) as (n & _ & _ & body & _ & _ & Hs & Hc).
          apply Hc. rewrite <- Ec, Hs. reflexivity. }
        destruct (count_pages_raises _ _ _ Ec) as [Hk | ->]; [|now destruct Hfits].
        destruct e; try discriminate Hk; cbn; intros [= <- <- <-];
          do 3 right; (repeat split; auto); exists d, self1; (split; [reflexivity|]).
        -- right. right. eauto.
        -- right. left. auto.
    + destruct (is_StopIteration _ || is_TypeError _); cbn; intros [= <- <- <-];
        right; right; left; (repeat split; auto); exists e, self1; (split; [reflexivity|]);
        [left; auto | right; eauto].
  - cbn. intros [= <- <- <-]. right. left. auto.
Qed.

(** ** Pages that are not what [__next__] expects *)

Lemma getitem_chain_raises (r : result json) k e :
  (g <- r ;; Py.getitem g k) = Raise e ->
  (forall e', r = Raise e' -> is_TypeError e' || is_KeyError e' = true) ->
  is_TypeError e || is_KeyError e = true.
Proof.
  destruct r as [g|e0]; cbn; intros H Hr.
  - rewrite orb_comm. exact (getitem_raises _ _ _ H).
  - injection H as <-. now apply Hr.
Qed.

(** X1.  When the data the loader yields has no generic section, or the
    section no media section, or either cannot be subscripted, [__next__]
    raises [StopIteration] and marks the iterator finished: the stream
    ends without an error, and every later call raises [StopIteration]
    without a request. *)
Theorem missing_section_ends_the_stream
  (fuel : nat) (self : PageIterator) (w : World)
  (d : json) (self1 : PageIterator) (w1 : World) (e : exn)
  (fuel' : nat) (w2 : World) :
  _finished self = false ->
  next_data_it fuel self w = Some (Return d, self1, w1) ->
  (g <- Py.getitem d (section_generic self1) ;; Py.getitem g (section_media self1))
  = Raise e ->
  __next__ fuel self w = Some (Raise StopIteration, set_finished true self1, w1)
  /\ __next__ fuel' (set_finished true self1) w2
     = Some (Raise StopIteration, set_finished true self1, w2).
Proof.
  intros Hfin Hgen Hsec. split; [|now apply next_finished].
  unfold __next__. rewrite Hfin, Hgen, Hsec.
  assert (Hc : is_TypeError e || is_KeyError e = true).
  { apply (getitem_chain_raises _ _ _ Hsec). intros e' He'.
    rewrite orb_comm. exact (getitem_raises _ _ _ He'). }
  now rewrite Hc.
Qed.

Lemma missing_section_witness :
  __next__ 1 Sample.tagged (Sample.scripted [Return Sample.first_page])
  = Some (Raise StopIteration,
          set_finished true (set_total (Some 0) Sample.tagged),
          sent Sample.tagged "token" (Sample.scripted [Return Sample.first_page]))
  /\ __next__ 1 (set_finished true (set_total (Some 0) Sample.tagged))
       (Sample.scripted [Return Sample.last_page])
     = Some (Raise StopIteration,
             set_finished true (set_total (Some 0) Sample.tagged),
             Sample.scripted [Return Sample.last_page]).
Proof.
  apply (missing_section_ends_the_stream 1 Sample.tagged
           (Sample.scripted [Return Sample.first_page])
           (JObj [("user", generic_of Sample.fresh Sample.first_page)])
           (set_total (Some 0) Sample.tagged)
           (sent Sample.tagged "token" (Sample.scripted [Return Sample.first_page]))
           (KeyError "hashtag") 1 (Sample.scripted [Return Sample.last_page])).
  - reflexivity.
  - vm_compute; reflexivity.
  - reflexivity.
Defined.

(** X2.  When the media section is there but lacks [page_info] or its
    [has_next_page], or a page that announces a next page lacks [edges],
    or one that also holds edges lacks [end_cursor], the exception of the
    failed subscript leaves [__next__]; the iterator is left as the loader
    left it, neither finished nor advanced. *)
Theorem malformed_media_info_raises
  (fuel : nat) (self : PageIterator) (w : World)
  (d g m : json) (self1 : PageIterator) (w1 : World) (e : exn) :
  _finished self = false ->
  next_data_it fuel self w = Some (Return d, self1, w1) ->
  Py.getitem d (section_generic self1) = Return g ->
  Py.getitem g (section_media self1) = Return m ->
  ((p <- Py.getitem m "page_info" ;; Py.getitem p "has_next_page") = Raise e
   \/ (exists h, (p <- Py.getitem m "page_info" ;; Py.getitem p "has_next_page") = Return h
                 /\ Py.truthy h = true /\ Py.getitem m "edges" = Raise e)
   \/ (exists h edges,
         (p <- Py.getitem m "page_info" ;; Py.getitem p "has_next_page") = Return h
         /\ Py.truthy h = true
         /\ Py.getitem m "edges" = Return edges /\ Py.truthy edges = true
         /\ (p <- Py.getitem m "page_info" ;; Py.getitem p "end_cursor") = Raise e)) ->
  __next__ fuel self w = Some (Raise e, self1, w1)
  /\ _finished self1 = false
  /\ _cursor self1 = _cursor self
  /\ _current_page self1 = _current_page self.
Proof.
  intros Hfin Hgen Hg Hm Hbad.
  assert (Hkeep : _finished self1 = false /\ _cursor self1 = _cursor self
                  /\ _current_page self1 = _current_page self).
  { destruct (gen_only_total _ _ _ _ _ _ Hgen) as (t & ->). cbn. auto. }
  split; [|exact Hkeep].
  unfold __next__. rewrite Hfin, Hgen. unfold bind at 1. rewrite Hg, Hm.
  destruct Hbad as [H1 | [(h & H1 & Hh & H2) | (h & ed & H1 & Hh & H2 & He & H3)]].
  - now rewrite H1.
  - now rewrite H1, Hh, H2.
  - now rewrite H1, Hh, H2, He, H3.
Qed.

Lemma malformed_media_info_witness :
  __next__ 1 Sample.fresh (Sample.scripted [Return Sample.bare_page])
  = Some (Raise (KeyError "page_info"),
          set_total (Some 1) Sample.fresh,
          sent Sample.fresh "token" (Sample.scripted [Return Sample.bare_page]))
  /\ _finished (set_total (Some 1) Sample.fresh) = false
  /\ _cursor (set_total (Some 1) Sample.fresh) = _cursor Sample.fresh
  /\ _current_page (set_total (Some 1) Sample.fresh) = _current_page Sample.fresh.
Proof.
  apply (malformed_media_info_raises 1 Sample.fresh
           (Sample.scripted [Return Sample.bare_page])
           (JObj [("user",
                   JObj [("edge_owner_to_timeline_media", JObj [("count", JNum 3)])])])
           (JObj [("edge_owner_to_timeline_media", JObj [("count", JNum 3)])])
           (JObj [("count", JNum 3)])).
  - reflexivity.
  - vm_compute; reflexivity.
  - reflexivity.
  - reflexivity.
  - left. reflexivity.
Defined.

(** ** Exceptions that leave the generator *)

Lemma next_on_closed fuel self w :
  _data_it self = Closed ->
  __next__ fuel self w = Some (Raise StopIteration, self, w).
Proof.
  intros H. unfold __next__, next_data_it. rewrite H. now destruct (_finished self).
Qed.

(** X3.  When the decoded body of the response is not a dict, the
    [TypeError] of [data['data']] leaves the loader and reaches the caller
    of [__next__], the estimate being set to 0; [__length_hint__], asked
    first, swallows it and returns 0 less the pages done.  The generator
    is closed: every later [__next__] raises [StopIteration] without a
    request. *)
Theorem body_that_is_no_dict
  (fuel : nat) (self : PageIterator) (w : World) (csrf : string) (body : json)
  (fuel' : nat) (w2 : World) :
  _finished self = false ->
  _data_it self = Suspended ->
  Headers.get "X-CSRFToken" (headers (session w)) = Some csrf ->
  answer self csrf w = Return body ->
  (forall items, body <> JObj items) ->
  __next__ (S fuel) self w
  = Some (Raise TypeError, set_data_it Closed (set_total (Some 0) self),
          sent self csrf w)
  /\ __length_hint__ (S fuel) self w
     = match _total self with
       | Some t => Some (Return (t - _done self), self, w)
       | None =>
           Some (Return (0 - _done self),
                 set_total (Some 0) (set_data_it Closed (set_total (Some 0) self)),
                 sent self csrf w)
       end
  /\ __next__ fuel' (set_data_it Closed (set_total (Some 0) self)) w2
     = Some (Raise StopIteration, set_data_it Closed (set_total (Some 0) self), w2).
Proof.
  intros Hfin Hgen Hcsrf Hans Hbody.
  assert (Hdata : Py.getitem body "data" = Raise TypeError)
    by (destruct body; try reflexivity; now destruct (Hbody items)).
  pose proof (loader_fail_body fuel _ _ _ _ _ Hcsrf Hans Hdata eq_refl) as Hl.
  split; [|split].
  - unfold __next__, next_data_it. now rewrite Hfin, Hgen, Hl.
  - unfold __length_hint__, next_data_it, total_minus_done.
    destruct (_total self); [reflexivity|]. now rewrite Hgen, Hl.
  - now apply next_on_closed.
Qed.

Lemma body_that_is_no_dict_witness :
  __next__ 1 Sample.fresh (Sample.scripted [Return (JArr [])])
  = Some (Raise TypeError, set_data_it Closed (set_total (Some 0) Sample.fresh),
          sent Sample.fresh "token" (Sample.scripted [Return (JArr [])]))
  /\ __length_hint__ 1 Sample.fresh (Sample.scripted [Return (JArr [])])
     = Some (Return (0 - 0),
             set_total (Some 0) (set_data_it Closed (set_total (Some 0) Sample.fresh)),
             sent Sample.fresh "token" (Sample.scripted [Return (JArr [])]))
  /\ __next__ 1 (set_data_it Closed (set_total (Some 0) Sample.fresh))
       (Sample.scripted [Return Sample.last_page])
     = Some (Raise StopIteration,
             set_data_it Closed (set_total (Some 0) Sample.fresh),
             Sample.scripted [Return Sample.last_page]).
Proof.
  apply (body_that_is_no_dict 0 Sample.fresh (Sample.scripted [Return (JArr [])])
           "token" (JArr []) 1 (Sample.scripted [Return Sample.last_page])).
  - reflexivity.
  - reflexivity.
  - reflexivity.
  - reflexivity.
  - intros items H. discriminate H.
Defined.

(** X4.  An exception of the transport that is not a [KeyError] is not
    retried: it reaches the caller of [__next__] (a [StopIteration] as
    [RuntimeError]) after one request and no sleep.  It closes the
    generator: every later [__next__] raises [StopIteration] without a
    request, although the iterator is not marked finished, and
    [__length_hint__] returns the estimate less the pages done, taking 0
    for an estimate that no fetch has set. *)
Theorem transport_error_closes_the_generator
  (fuel : nat) (self : PageIterator) (w : World) (csrf : string) (e : exn)
  (fuel' : nat) (w2 : World) :
  _finished self = false ->
  _data_it self = Suspended ->
  Headers.get "X-CSRFToken" (headers (session w)) = Some csrf ->
  answer self csrf w = Raise e ->
  is_KeyError e = false ->
  __next__ (S fuel) self w
  = Some (Raise (if is_StopIteration e
                 then RuntimeError "generator raised StopIteration" else e),
          set_data_it Closed self, sent self csrf w)
  /\ _finished (set_data_it Closed self) = false
  /\ __next__ fuel' (set_data_it Closed self) w2
     = Some (Raise StopIteration, set_data_it Closed self, w2)
  /\ __length_hint__ fuel' (set_data_it Closed self) w2
     = match _total self with
       | Some t => Some (Return (t - _done self), set_data_it Closed self, w2)
       | None =>
           Some (Return (0 - _done self),
                 set_total (Some 0) (set_data_it Closed self), w2)
       end.
Proof.
  intros Hfin Hgen Hcsrf Hans He.
  pose proof (loader_fail_transport fuel _ _ _ _ Hcsrf Hans He) as Hl.
  split; [|split; [|split]].
  - unfold __next__, next_data_it. now rewrite Hfin, Hgen, Hl.
  - exact Hfin.
  - now apply next_on_closed.
  - unfold __length_hint__, next_data_it, total_minus_done.
    cbn [_total set_data_it _data_it]. now destruct (_total self).
Qed.

Lemma transport_error_witness :
  __next__ 1 Sample.fresh (Sample.scripted [])
  = Some (Raise (OtherError "ConnectionError"),
          set_data_it Closed Sample.fresh, sent Sample.fresh "token" (Sample.scripted []))
  /\ _finished (set_data_it Closed Sample.fresh) = false
  /\ __next__ 1 (set_data_it Closed Sample.fresh) (Sample.scripted [Return Sample.last_page])
     = Some (Raise StopIteration, set_data_it Closed Sample.fresh,
             Sample.scripted [Return Sample.last_page])
  /\ __length_hint__ 1 (set_data_it Closed Sample.fresh)
       (Sample.scripted [Return Sample.last_page])
     = Some (Return (0 - 0), set_total (Some 0) (set_data_it Closed Sample.fresh),
             Sample.scripted [Return Sample.last_page]).
Proof.
  apply (transport_error_closes_the_generator 0 Sample.fresh (Sample.scripted [])
           "token" (OtherError "ConnectionError") 1
           (Sample.scripted [Return Sample.last_page]));
    reflexivity.
Defined.

(** ** What the operations leave alone *)

Lemma settled_frame n self csrf w :
  Headers.get "X-CSRFToken" (headers (session w)) = Some csrf ->
  frame w (settled n self csrf w).
Proof.
  intros Hcsrf. unfold frame, settled, sent; cbn [session remote requests slept headers cookies].
  repeat split.
  - intros k Hk. now apply get_set_other.
  - eauto.
  - lia.
Qed.

Lemma frame_refl w : frame w w.
Proof.
  unfold frame. repeat split; [|lia]. exists []. now rewrite app_nil_r.
Qed.

Lemma loader_frame fuel self w r self' w' :
  _page_loader fuel self w = Some (r, self', w') -> frame w w'.
Proof.
  intros H. destruct (loader_needs_csrf _ _ _ _ _ _ H) as (csrf & Hcsrf).
  destruct (loader_trace _ _ _ _ _ _ _ Hcsrf H) as (n & -> & _).
  now apply settled_frame.
Qed.

(** X5.  Whatever [__next__] and [__length_hint__] do, the requests
    issued before stay in the log, time asleep does not go back, and of
    the session's headers they write [x-instagram-gis] and no other: the
    CSRF token, for one, is as it was. *)
Theorem operations_keep_the_session
  (fuel : nat) (self self' : PageIterator) (w w' : World) :
  (exists r, __next__ fuel self w = Some (r, self', w'))
  \/ (exists r, __length_hint__ fuel self w = Some (r, self', w')) ->
  frame w w'.
Proof.
  intros [(r & H) | (r & H)].
  - destruct (next_cases _ _ _ _ _ _ H)
      as [(_ & _ & _ & ->) | [(_ & _ & _ & _ & ->)
          | [(_ & _ & e & s1 & Hl & _) | (_ & _ & d & s1 & Hl & _)]]];
      eauto using frame_refl, loader_frame.
  - destruct (hint_cases _ _ _ _ _ _ H)
      as [(t & _ & _ & _ & ->) | [(_ & _ & _ & _ & ->)
          | [(_ & _ & e & s1 & Hl & _) | (_ & _ & d & s1 & Hl & _)]]];
      eauto using frame_refl, loader_frame.
Qed.

Lemma operations_keep_the_session_witness :
  frame (Sample.scripted [Return Sample.first_page])
    (sent Sample.fresh "token" (Sample.scripted [Return Sample.first_page])).
Proof.
  apply (operations_keep_the_session 1 Sample.fresh
           (advance (JStr "c1") (set_total (Some 2) Sample.fresh))
           (Sample.scripted [Return Sample.first_page])
           (sent Sample.fresh "token" (Sample.scripted [Return Sample.first_page]))).
  left. exists (Return (generic_of Sample.fresh Sample.first_page)).
  vm_compute; reflexivity.
Defined.

(** ** Requests, retries and the page returned *)

(** X6.  A resumption of the loader that comes back, with data or with an
    exception, has issued one and the same request once more than it met
    missing-key failures, and has slept 10 seconds for each of them; the
    attempt that ended it was no such failure. *)
Theorem loader_retry_accounting
  (fuel : nat) (self : PageIterator) (w : World) (r : result json)
  (self' : PageIterator) (w' : World) :
  _page_loader fuel self w = Some (r, self', w') ->
  exists csrf n,
    Headers.get "X-CSRFToken" (headers (session w)) = Some csrf
    /\ requests w'
       = (requests w
          ++ repeat (page_request self csrf (headers (session w)) (_cursor self)) (S n))%list
    /\ slept w' = slept w + 10 * Z.of_nat n
    /\ (forall i, (i < n)%nat ->
          missing_key
            (remote w (List.length (requests w) + i)
               (page_request self csrf (headers (session w)) (_cursor self))) = true)
    /\ missing_key
         (remote w (List.length (requests w) + n)
            (page_request self csrf (headers (session w)) (_cursor self))) = false.
Proof.
  intros H. destruct (loader_needs_csrf _ _ _ _ _ _ H) as (csrf & Hcsrf).
  destruct (loader_trace _ _ _ _ _ _ _ Hcsrf H) as (n & -> & Hfail & Hlast).
  exists csrf, n. repeat split; auto.
  destruct r as [d|e].
  - destruct Hlast as (body & -> & Hd & _). cbn. now rewrite Hd.
  - destruct Hlast as (He & _ & [-> | [(body & -> & Hd & _) | (body & d & -> & Hd & _)]]);
      cbn; [exact He | |]; now rewrite Hd.
Qed.

Lemma loader_retry_accounting_witness :
  exists csrf n,
    Headers.get "X-CSRFToken"
      (headers (session (Sample.scripted [Return (JObj []); Return Sample.last_page])))
    = Some csrf
    /\ requests (settled 1 Sample.fresh "token"
                   (Sample.scripted [Return (JObj []); Return Sample.last_page]))
       = ([] ++ repeat (page_request Sample.fresh csrf [("X-CSRFToken", "token")] JNull)
                  (S n))%list
    /\ slept (settled 1 Sample.fresh "token"
                (Sample.scripted [Return (JObj []); Return Sample.last_page]))
       = 0 + 10 * Z.of_nat n
    /\ (forall i, (i < n)%nat ->
          missing_key
            (remote (Sample.scripted [Return (JObj []); Return Sample.last_page]) (0 + i)
               (page_request Sample.fresh csrf [("X-CSRFToken", "token")] JNull)) = true)
    /\ missing_key
         (remote (Sample.scripted [Return (JObj []); Return Sample.last_page]) (0 + n)
            (page_request Sample.fresh csrf [("X-CSRFToken", "token")] JNull)) = false.
Proof.
  apply (loader_retry_accounting 2 Sample.fresh
           (Sample.scripted [Return (JObj []); Return Sample.last_page])
           (Return (JObj [("user", generic_of Sample.fresh Sample.last_page)]))
           (set_total (Some 2) Sample.fresh)).
  vm_compute; reflexivity.
Defined.

Lemma fields_generic self d f :
  fields self d = Return f -> Py.getitem d (section_generic self) = Return (f_generic f).
Proof. intros H. fields_inv H. reflexivity. Qed.

(** X7.  A value that [__next__] returns is the generic section of the
    body that answered the last request of this very call: each page
    returned costs at least one request, none comes from an earlier
    fetch, and the estimate then is the one of that page. *)
Theorem returned_page_is_the_last_response
  (fuel : nat) (self : PageIterator) (w : World) (v : json)
  (self' : PageIterator) (w' : World) :
  __next__ fuel self w = Some (Return v, self', w') ->
  exists csrf n body d,
    Headers.get "X-CSRFToken" (headers (session w)) = Some csrf
    /\ requests w'
       = (requests w
          ++ repeat (page_request self csrf (headers (session w)) (_cursor self)) (S n))%list
    /\ remote w (List.length (requests w) + n)
         (page_request self csrf (headers (session w)) (_cursor self)) = Return body
    /\ Py.getitem body "data" = Return d
    /\ Py.getitem d (section_generic self) = Return v
    /\ _total self' = Some (estimate self d).
Proof.
  intros H.
  destruct (next_cases _ _ _ _ _ _ H)
    as [(_ & [=] & _) | [(_ & _ & [=] & _)
        | [(_ & _ & e & s1 & _ & [=] & _) | (_ & _ & d & s1 & Hl & Hr)]]].
  destruct (loader_needs_csrf _ _ _ _ _ _ Hl) as (csrf & Hcsrf).
  destruct (loader_trace _ _ _ _ _ _ _ Hcsrf Hl)
    as (n & -> & _ & body & Hb & Hd & -> & _).
  exists csrf, n, body, d. split; [exact Hcsrf|]. split; [reflexivity|].
  split; [exact Hb|]. split; [exact Hd|].
  destruct Hr as [([=] & _) | [(e & [=] & _)
                  | [(v0 & [= <-] & Hv & ->) | (f & [= ->] & Hf & _ & _ & ->)]]].
  - split; [exact Hv | reflexivity].
  - split; [exact (fields_generic _ _ _ Hf) | reflexivity].
Qed.

Lemma returned_page_witness :
  exists csrf n body d,
    Headers.get "X-CSRFToken"
      (headers (session (Sample.scripted [Return Sample.first_page]))) = Some csrf
    /\ requests (sent Sample.fresh "token" (Sample.scripted [Return Sample.first_page]))
       = ([] ++ repeat (page_request Sample.fresh csrf [("X-CSRFToken", "token")] JNull)
                  (S n))%list
    /\ remote (Sample.scripted [Return Sample.first_page]) (0 + n)
         (page_request Sample.fresh csrf [("X-CSRFToken", "token")] JNull) = Return body
    /\ Py.getitem body "data" = Return d
    /\ Py.getitem d (section_generic Sample.fresh)
       = Return (generic_of Sample.fresh Sample.first_page)
    /\ _total (advance (JStr "c1") (set_total (Some 2) Sample.fresh))
       = Some (estimate Sample.fresh d).
Proof.
  apply (returned_page_is_the_last_response 1 Sample.fresh
           (Sample.scripted [Return Sample.first_page])).
  vm_compute; reflexivity.
Defined.

(** ** How the iterator's state moves *)

(** X8.  [__length_hint__] never moves the iterator along: whatever it
    returns or raises, cursor, page index, finished flag and pages done
    are as before.  The fetch it may trigger is made with the cursor that
    the next [__next__] will use again. *)
Theorem length_hint_moves_nothing
  (fuel : nat) (self : PageIterator) (w : World) (r : result Z)
  (self' : PageIterator) (w' : World) :
  __length_hint__ fuel self w = Some (r, self', w') ->
  _cursor self' = _cursor self
  /\ _current_page self' = _current_page self
  /\ _finished self' = _finished self
  /\ _done self' = _done self
  /\ cls self' = cls self
  /\ rhx self' = rhx self.
Proof.
  intros H.
  destruct (hint_cases _ _ _ _ _ _ H)
    as [(t & _ & _ & -> & _) | [(_ & _ & _ & -> & _)
        | [(_ & _ & e & s1 & Hl & Hr) | (_ & _ & d & s1 & Hl & Hr)]]];
    [repeat split .. | | ];
    destruct (loader_only_total _ _ _ _ _ _ Hl) as (t & ->).
  - destruct Hr as [(_ & ->) | (e' & _ & ->)]; repeat split.
  - destruct Hr as [(t' & _ & _ & ->) | [(_ & _ & ->) | (k & _ & _ & ->)]]; repeat split.
Qed.

Lemma length_hint_moves_nothing_witness :
  _cursor (set_total (Some 2) (set_total (Some 2) Sample.fresh)) = _cursor Sample.fresh
  /\ _current_page (set_total (Some 2) (set_total (Some 2) Sample.fresh))
     = _current_page Sample.fresh
  /\ _finished (set_total (Some 2) (set_total (Some 2) Sample.fresh))
     = _finished Sample.fresh
  /\ _done (set_total (Some 2) (set_total (Some 2) Sample.fresh)) = _done Sample.fresh
  /\ cls (set_total (Some 2) (set_total (Some 2) Sample.fresh)) = cls Sample.fresh
  /\ rhx (set_total (Some 2) (set_total (Some 2) Sample.fresh)) = rhx Sample.fresh.
Proof.
  apply (length_hint_moves_nothing 1 Sample.fresh
           (Sample.scripted [Return Sample.first_page]) (Return 2) _
           (sent Sample.fresh "token" (Sample.scripted [Return Sample.first_page]))).
  vm_compute; reflexivity.
Defined.

(** X9.  A call of [__next__] either leaves cursor and page index as
    they are, or it returns the generic section of a page that announces a
    next page and holds edges, takes that page's [end_cursor] as the new
    cursor and adds one to the page index, the iterator staying active.
    It never changes class, session token or pages done. *)
Theorem next_advances_with_the_page
  (fuel : nat) (self : PageIterator) (w : World) (r : result json)
  (self' : PageIterator) (w' : World) :
  __next__ fuel self w = Some (r, self', w') ->
  cls self' = cls self /\ rhx self' = rhx self /\ _done self' = _done self
  /\ ((_cursor self' = _cursor self /\ _current_page self' = _current_page self)
      \/ exists d f,
           r = Return (f_generic f)
           /\ fields self d = Return f
           /\ Py.truthy (f_has_next_page f) = true
           /\ Py.truthy (f_edges f) = true
           /\ _cursor self' = f_end_cursor f
           /\ _current_page self' = _current_page self + 1
           /\ _finished self' = false).
Proof.
  intros H.
  destruct (next_cases _ _ _ _ _ _ H)
    as [(_ & _ & -> & _) | [(_ & _ & _ & -> & _)
        | [(Hfin & _ & e & s1 & Hl & _ & ->) | (Hfin & _ & d & s1 & Hl & Hr)]]];
    [repeat split; auto .. | | ];
    destruct (loader_only_total _ _ _ _ _ _ Hl) as (t & ->).
  - repeat split; auto.
  - destruct Hr as [(_ & ->) | [(e & _ & ->)
                    | [(v & _ & _ & ->) | (f & -> & Hf & Hn & He & ->)]]];
      repeat split; [left; split; reflexivity .. |].
    right. exists d, f. repeat split; auto.
Qed.

Lemma next_advances_witness :
  cls Sample.second = cls Sample.fresh /\ rhx Sample.second = rhx Sample.fresh
  /\ _done Sample.second = _done Sample.fresh
  /\ ((_cursor Sample.second = _cursor Sample.fresh
       /\ _current_page Sample.second = _current_page Sample.fresh)
      \/ exists d f,
           Return (generic_of Sample.fresh Sample.first_page) = Return (f_generic f)
           /\ fields Sample.fresh d = Return f
           /\ Py.truthy (f_has_next_page f) = true
           /\ Py.truthy (f_edges f) = true
           /\ _cursor Sample.second = f_end_cursor f
           /\ _current_page Sample.second = _current_page Sample.fresh + 1
           /\ _finished Sample.second = false).
Proof.
  apply (next_advances_with_the_page 1 Sample.fresh
           (Sample.scripted [Return Sample.first_page])
           (Return (generic_of Sample.fresh Sample.first_page)) Sample.second
           (sent Sample.fresh "token" (Sample.scripted [Return Sample.first_page]))).
  vm_compute; reflexivity.
Defined.

Lemma returned_page_cases fuel self w v self' w' :
  __next__ fuel self w = Some (Return v, self', w') ->
  exists t, _total self' = Some t.
Proof.
  intros H.
  destruct (next_cases _ _ _ _ _ _ H)
    as [(_ & [=] & _) | [(_ & _ & [=] & _)
        | [(_ & _ & e & s1 & _ & [=] & _) | (_ & _ & d & s1 & Hl & Hr)]]].
  apply loader_keeps in Hl. destruct Hl as (_ & _ & _ & _ & _ & _ & _ & Ht).
  specialize (Ht d eq_refl).
  destruct Hr as [([=] & _) | [(e & [=] & _)
                  | [(v0 & _ & _ & ->) | (f & _ & _ & _ & _ & ->)]]];
    cbn; destruct (_total s1) as [t|]; try congruence; eauto.
Qed.

(** X10.  After a call of [__next__] that returned a page the estimate
    is known: [__length_hint__] returns it less the pages done, fetches
    nothing and changes nothing, however often it is asked. *)
Theorem length_hint_after_a_page
  (fuel : nat) (self : PageIterator) (w : World) (v : json)
  (self' : PageIterator) (w' : World) (fuel' : nat) (w2 : World) :
  __next__ fuel self w = Some (Return v, self', w') ->
  exists t,
    _total self' = Some t
    /\ __length_hint__ fuel' self' w2 = Some (Return (t - _done self'), self', w2).
Proof.
  intros H.
  destruct (returned_page_cases _ _ _ _ _ _ H) as (t & Ht).
  exists t. split; [exact Ht|].
  unfold __length_hint__, total_minus_done. now rewrite Ht.
Qed.

Lemma length_hint_after_a_page_witness :
  exists t,
    _total Sample.second = Some t
    /\ __length_hint__ 0 Sample.second Sample.recount_world
       = Some (Return (t - _done Sample.second), Sample.second, Sample.recount_world).
Proof.
  apply (length_hint_after_a_page 1 Sample.fresh
           (Sample.scripted [Return Sample.first_page])
           (generic_of Sample.fresh Sample.first_page) Sample.second
           (sent Sample.fresh "token" (Sample.scripted [Return Sample.first_page]))).
  vm_compute; reflexivity.
Defined.

(** X11.  The length hint of an iterator that has been run is the
    estimate itself: nothing ever advances the pages done, so that the
    hint does not go down as pages are returned. *)
Theorem length_hint_is_the_estimate
  (self : PageIterator) (t : Z) (fuel : nat) (w : World) :
  reachable self ->
  _total self = Some t ->
  _done self = 0
  /\ __length_hint__ fuel self w = Some (Return t, self, w).
Proof.
  intros Hr Ht. split; [now apply reachable_done | now apply hint_is_total].
Qed.

Lemma length_hint_is_the_estimate_witness :
  _done Sample.second = 0
  /\ __length_hint__ 0 Sample.second (Sample.scripted [])
     = Some (Return 2, Sample.second, Sample.scripted []).
Proof.
  apply length_hint_is_the_estimate.
  - apply (reach_next 1 Sample.fresh (Sample.scripted [Return Sample.first_page])
             (Return (generic_of Sample.fresh Sample.first_page)) _
             (sent Sample.fresh "token" (Sample.scripted [Return Sample.first_page]))).
    + apply reach_init.
    + vm_compute; reflexivity.
  - reflexivity.
Defined.

(** ** A session without CSRF token *)

(** X12.  When the session has no [X-CSRFToken] header, the lookup of the
    header raises [KeyError] on every turn of the loader's loop before any
    request: however many turns are allowed, the loader neither yields nor
    raises, and neither [__next__] nor [__length_hint__] of an active
    iterator without estimate comes back. *)
Theorem without_csrf_token_nothing_comes_back
  (self : PageIterator) (w : World) (fuel : nat) :
  Headers.get "X-CSRFToken" (headers (session w)) = None ->
  _finished self = false ->
  _total self = None ->
  _data_it self = Suspended ->
  _page_loader fuel self w = None
  /\ __next__ fuel self w = None
  /\ __length_hint__ fuel self w = None.
Proof.
  intros H Hfin Htot Hgen. pose proof (loader_without_csrf fuel self w H) as Hl.
  split; [exact Hl|]. split.
  - unfold __next__, next_data_it. now rewrite Hfin, Hgen, Hl.
  - unfold __length_hint__, next_data_it. now rewrite Htot, Hgen, Hl.
Qed.

Lemma without_csrf_token_witness :
  _page_loader 1000 Sample.fresh Sample.anonymous_world = None
  /\ __next__ 1000 Sample.fresh Sample.anonymous_world = None
  /\ __length_hint__ 1000 Sample.fresh Sample.anonymous_world = None.
Proof.
  apply (without_csrf_token_nothing_comes_back Sample.fresh Sample.anonymous_world 1000);
    reflexivity.
Defined.

(** ** The estimate as a number of pages *)

Lemma ceil_div_bounds c : PAGE_SIZE * (ceil_div c PAGE_SIZE - 1) < c <= PAGE_SIZE * ceil_div c PAGE_SIZE.
Proof.
  unfold ceil_div, PAGE_SIZE.
  pose proof (Z.div_mod (- c) 200 ltac:(lia)).
  pose proof (Z.mod_pos_bound (- c) 200 ltac:(lia)).
  lia.
Qed.

(** X13.  When a fetched page reports an integer count [c] with
    [0 <= c < 200 * 2 ^ 46], a range in which the float division loses
    nothing that the ceiling sees, the estimate [t] the loader sets is the
    number of pages of [PAGE_SIZE] items that [c] items fill:
    [PAGE_SIZE * (t - 1) < c <= PAGE_SIZE * t]; for a count of 0 it
    is 0. *)
Theorem estimate_is_the_number_of_pages
  (fuel : nat) (self : PageIterator) (w : World) (csrf : string)
  (body d : json) (c : Z) :
  Headers.get "X-CSRFToken" (headers (session w)) = Some csrf ->
  answer self csrf w = Return body ->
  Py.getitem body "data" = Return d ->
  count_of self d = Return (JNum c) ->
  0 <= c < 200 * 2 ^ 46 ->
  exists t self',
    _page_loader (S fuel) self w = Some (Return d, self', sent self csrf w)
    /\ _total self' = Some t
    /\ PAGE_SIZE * (t - 1) < c <= PAGE_SIZE * t.
Proof.
  intros Hcsrf Hans Hdata Hc Hr.
  assert (Hp : count_pages self d = Return (ceil_div c PAGE_SIZE)).
  { rewrite count_pages_of, Hc. cbn [bind]. now apply pages_of_count_small. }
  exists (ceil_div c PAGE_SIZE), (set_total (Some (ceil_div c PAGE_SIZE)) self).
  split; [|split; [reflexivity | apply ceil_div_bounds]].
  rewrite (loader_yield _ _ _ _ _ _ Hcsrf Hans Hdata) by (rewrite Hp; discriminate).
  unfold estimate. now rewrite Hp.
Qed.

Lemma estimate_is_the_number_of_pages_witness :
  exists t self',
    _page_loader 1 Sample.fresh (Sample.scripted [Return Sample.first_page])
    = Some (Return (JObj [("user", generic_of Sample.fresh Sample.first_page)]), self',
            sent Sample.fresh "token" (Sample.scripted [Return Sample.first_page]))
    /\ _total self' = Some t
    /\ PAGE_SIZE * (t - 1) < 400 <= PAGE_SIZE * t.
Proof.
  apply (estimate_is_the_number_of_pages 0 Sample.fresh
           (Sample.scripted [Return Sample.first_page]) "token" Sample.first_page).
  - reflexivity.
  - reflexivity.
  - reflexivity.
  - reflexivity.
  - vm_compute. split; [discriminate | reflexivity].
Defined.

(** ** Resolving a profile *)

(** X14.  When fetching the profile page or extracting its shared data
    raises [ValueError] or [AttributeError], [from_username] raises
    [ValueError] with the message [account not found: <handle>]; any other
    exception of the fetch reaches the caller as it is. *)
Theorem profile_fetch_failure
  (username : string) (w : World) (e : exn) :
  remote w (List.length (requests w)) (profile_request username w) = Raise e ->
  from_username username w
  = (Raise (match e with
            | ValueError _ | AttributeError =>
                ValueError ("account not found: " ++ username)
            | _ => e
            end),
     visited username w).
Proof.
  intros Hans. unfold from_username, _user_data, session_get.
  change {| req_url := "https://www.instagram.com/" ++ username ++ "/";
            req_headers := headers (session w) |}
    with (profile_request username w).
  rewrite Hans. now destruct e.
Qed.

Lemma profile_fetch_failure_witness :
  from_username "ghost" (Sample.keyed (fun _ => Raise AttributeError) [])
  = (Raise (ValueError "account not found: ghost"),
     visited "ghost" (Sample.keyed (fun _ => Raise AttributeError) [])).
Proof.
  apply (profile_fetch_failure "ghost" (Sample.keyed (fun _ => Raise AttributeError) [])
           AttributeError).
  reflexivity.
Defined.

Lemma from_username_private username w user_data data is_private fbv id :
  remote w (List.length (requests w)) (profile_request username w) = Return user_data ->
  profile_user user_data = Return data ->
  Py.getitem data "is_private" = Return is_private ->
  Py.truthy is_private = true ->
  Py.getitem data "followed_by_viewer" = Return fbv ->
  Py.truthy fbv = false ->
  Py.getitem data "id" = Return id ->
  fst (from_username username w)
  = if Py.eq_opt_text (cookie_value "ds_user_id" (cookies (session (visited username w)))) id
    then rhx0 <- Py.getitem user_data "rhx_gis" ;;
         Return (__init__ (ProfileIterator id) rhx0)
    else Raise (RuntimeError ("user '" ++ username ++ "' is private")).
Proof.
  intros Hans Hdata Hp Hpt Hf Hft Hid.
  unfold from_username, _user_data, session_get.
  change {| req_url := "https://www.instagram.com/" ++ username ++ "/";
            req_headers := headers (session w) |}
    with (profile_request username w).
  rewrite Hans. unfold profile_user in Hdata. chain_inv Hdata.
  unfold bind. rewrite_getitems. rewrite E1. rewrite_getitems.
  rewrite Hpt, Hft. cbn [negb session fst].
  destruct (Py.eq_opt_text _ id); reflexivity.
Qed.

(** X16.  For a private account that the viewer does not follow, the
    comparison of the identity cookie with the owner id is one of Python
    values: it holds when the first [ds_user_id] cookie of the jar, as it
    is once the response is in, and the id are the same text, or when
    there is no such cookie and the id is [null]; an id that is a number
    is refused whatever the jar holds. *)
Theorem private_access_compares_values
  (username : string) (w : World) (user_data data is_private fbv id rhx0 : json) :
  remote w (List.length (requests w)) (profile_request username w) = Return user_data ->
  profile_user user_data = Return data ->
  Py.getitem data "is_private" = Return is_private ->
  Py.truthy is_private = true ->
  Py.getitem data "followed_by_viewer" = Return fbv ->
  Py.truthy fbv = false ->
  Py.getitem data "id" = Return id ->
  Py.getitem user_data "rhx_gis" = Return rhx0 ->
  (fst (from_username username w) = Return (__init__ (ProfileIterator id) rhx0)
   <-> (exists s, cookie_value "ds_user_id" (cookies (session (visited username w))) = Some s
                  /\ id = JStr s)
       \/ (cookie_value "ds_user_id" (cookies (session (visited username w))) = None /\ id = JNull))
  /\ ((exists it, fst (from_username username w) = Return it)
      \/ fst (from_username username w)
         = Raise (RuntimeError ("user '" ++ username ++ "' is private"))).
Proof.
  intros Hans Hdata Hp Hpt Hf Hft Hid Hrhx.
  rewrite (from_username_private _ _ _ _ _ _ _ Hans Hdata Hp Hpt Hf Hft Hid), Hrhx.
  cbn [bind].
  destruct (cookie_value "ds_user_id" (cookies (session (visited username w)))) as [s|];
    destruct id; cbn [Py.eq_opt_text];
    try (split; [split; [discriminate | intros [(s0 & [=] & [=]) | ([=] & [=])]]
                | right; reflexivity]).
  - destruct (String.eqb s s0) eqn:E.
    + apply String.eqb_eq in E. subst s0.
      split; [split; [intros _; left; eauto | reflexivity] | left; eauto].
    + split; [|right; reflexivity].
      split; [discriminate|]. intros [(s1 & [= <-] & [= <-]) | ([=] & _)].
      now rewrite String.eqb_refl in E.
  - split; [split; [intros _; right; auto | reflexivity] | left; eauto].
Qed.

Lemma private_access_witness :
  (fst (from_username "alice" Sample.numeric_world)
   = Return (__init__ (ProfileIterator (JNum 7)) (JStr "rhx"))
   <-> (exists s, cookie_value "ds_user_id"
                    (cookies (session (visited "alice" Sample.numeric_world))) = Some s
                  /\ JNum 7 = JStr s)
       \/ (cookie_value "ds_user_id"
             (cookies (session (visited "alice" Sample.numeric_world))) = None
           /\ JNum 7 = JNull))
  /\ ((exists it, fst (from_username "alice" Sample.numeric_world) = Return it)
      \/ fst (from_username "alice" Sample.numeric_world)
         = Raise (RuntimeError ("user '" ++ "alice" ++ "' is private"))).
Proof.
  apply (private_access_compares_values "alice" Sample.numeric_world
           (Sample.shared (JNum 7) true false)
           (JObj [("id", JNum 7); ("is_private", JBool true);
                  ("followed_by_viewer", JBool false)])
           (JBool true) (JBool false) (JNum 7) (JStr "rhx"));
    reflexivity.
Defined.

(** ** From the handle to the pages *)

(** X17.  Resolving the handle of a public account and iterating over
    what [from_username] returns: the iterator starts without cursor, so
    that after the request for the profile page the first query asks for
    the owner's pages with [after] null, and the pages served from then
    on, their counts not too large for the division by the page size,
    come back in order; before each of its requests the cursor of the
    iterator is [None], for the first, and the [end_cursor] of the page
    returned last, for the others. *)
Theorem resolve_then_iterate
  (username : string) (w : World) (csrf : string)
  (user_data data is_private id rhx0 : json) (pages : list json) (fuel : nat) :
  Headers.get "X-CSRFToken" (headers (session w)) = Some csrf ->
  remote w (List.length (requests w)) (profile_request username w) = Return user_data ->
  profile_user user_data = Return data ->
  Py.getitem data "is_private" = Return is_private ->
  Py.truthy is_private = false ->
  Py.getitem data "id" = Return id ->
  Py.getitem user_data "rhx_gis" = Return rhx0 ->
  served w (List.length (requests w) + 1) pages ->
  chain (__init__ (ProfileIterator id) rhx0) pages ->
  (exists self' w' new,
     from_username username w
     = (Return (__init__ (ProfileIterator id) rhx0), visited username w)
     /\ collect (S (List.length pages)) (S fuel)
          (__init__ (ProfileIterator id) rhx0) (visited username w)
        = Some (map (generic_of (__init__ (ProfileIterator id) rhx0)) pages,
                Some StopIteration, self', w')
     /\ requests w' = (requests w ++ profile_request username w :: new)%list
     /\ map req_url new
        = map (url_of (__init__ (ProfileIterator id) rhx0))
            (JNull :: map (end_cursor_of (__init__ (ProfileIterator id) rhx0))
                        (removelast pages)))
  /\ forall i, (i < List.length pages)%nat ->
       exists s w1,
         collect i (S fuel) (__init__ (ProfileIterator id) rhx0) (visited username w)
         = Some (map (generic_of (__init__ (ProfileIterator id) rhx0)) (firstn i pages),
                 None, s, w1)
         /\ _cursor s
            = nth i (JNull :: map (end_cursor_of (__init__ (ProfileIterator id) rhx0))
                                (removelast pages)) JNull.
Proof.
  intros Hcsrf Hans Hdata Hp Hpub Hid Hrhx Hserved Hchain.
  assert (Hserved1 : served (visited username w)
                       (List.length (requests (visited username w))) pages)
    by (cbn [visited requests]; rewrite length_app; exact Hserved).
  split.
  - destruct (collect_chain pages (__init__ (ProfileIterator id) rhx0)
                (visited username w) csrf fuel)
      as (self' & w' & new & Hc & Hreq & Hurl & _ & _);
      [reflexivity | reflexivity | exact Hcsrf | exact Hserved1 | exact Hchain |].
    exists self', w', new. split; [|split; [exact Hc | split; [|exact Hurl]]].
    + rewrite (from_username_resolved _ _ _ _ _ _ _ Hans Hdata Hp Hid Hrhx).
      now rewrite Hpub.
    + rewrite Hreq. cbn [visited requests]. now rewrite <- app_assoc.
  - intros i Hi.
    exact (collect_cursors pages i (__init__ (ProfileIterator id) rhx0)
             (visited username w) csrf fuel eq_refl eq_refl Hcsrf Hserved1 Hchain Hi).
Qed.

Lemma resolve_then_iterate_witness :
  (exists self' w' new,
     from_username "alice" Sample.public_world
     = (Return Sample.fresh, visited "alice" Sample.public_world)
     /\ collect 3 1 Sample.fresh (visited "alice" Sample.public_world)
        = Some ([generic_of Sample.fresh Sample.first_page;
                 generic_of Sample.fresh Sample.last_page],
                Some StopIteration, self', w')
     /\ requests w' = (profile_request "alice" Sample.public_world :: new)%list
     /\ map req_url new = [url_of Sample.fresh JNull; url_of Sample.fresh (JStr "c1")])
  /\ exists s w1,
       collect 1 1 Sample.fresh (visited "alice" Sample.public_world)
       = Some ([generic_of Sample.fresh Sample.first_page], None, s, w1)
       /\ _cursor s = JStr "c1".
Proof.
  destruct (resolve_then_iterate "alice" Sample.public_world "token"
              (Sample.shared (JStr "42") false false)
              (JObj [("id", JStr "42"); ("is_private", JBool false);
                     ("followed_by_viewer", JBool false)])
              (JBool false) (JStr "42") (JStr "rhx")
              [Sample.first_page; Sample.last_page] 0) as [H1 H2].
  - reflexivity.
  - reflexivity.
  - reflexivity.
  - reflexivity.
  - reflexivity.
  - reflexivity.
  - reflexivity.
  - intros i r Hi. destruct i as [|[|i]]; [reflexivity | reflexivity | simpl in Hi; lia].
  - cbn [chain]. eexists. split; [reflexivity|]. split; [count_fits_here|].
    split; [reflexivity|]. split; [reflexivity|].
    eexists. split; [reflexivity|]. split; [count_fits_here | reflexivity].
  - split; [exact H1 | exact (H2 1%nat ltac:(simpl; lia))].
Defined.

Lemma next_grows fuel self w r self' w' :
  __next__ fuel self w = Some (r, self', w') ->
  (List.length (requests w) + match r with Return _ => 1 | Raise _ => 0 end
   <= List.length (requests w'))%nat.
Proof.
  intros H.
  assert (Hl : forall r0 s1, _page_loader fuel self w = Some (r0, s1, w') ->
                 (List.length (requests w) + 1 <= List.length (requests w'))%nat).
  { intros r0 s1 Hl. destruct (loader_needs_csrf _ _ _ _ _ _ Hl) as (csrf & Hcsrf).
    destruct (loader_trace _ _ _ _ _ _ _ Hcsrf Hl) as (n & -> & _).
    cbn [settled requests]. rewrite length_app, repeat_length. lia. }
  destruct (next_cases _ _ _ _ _ _ H)
    as [(_ & -> & _ & ->) | [(_ & _ & -> & _ & ->)
        | [(_ & _ & e & s1 & Hl1 & _) | (_ & _ & d & s1 & Hl1 & _)]]];
    try lia; specialize (Hl _ _ Hl1); destruct r; lia.
Qed.

(** X18.  A loop over the iterator never returns more pages than it has
    issued requests: each value returned was fetched in the call that
    returned it. *)
Theorem each_page_costs_a_request (calls : nat) :
  forall (fuel : nat) (self : PageIterator) (w : World)
         (vs : list json) (e : option exn) (self' : PageIterator) (w' : World),
  collect calls fuel self w = Some (vs, e, self', w') ->
  (List.length (requests w) + List.length vs <= List.length (requests w'))%nat.
Proof.
  induction calls as [|calls IH]; intros fuel self w vs e self' w' H.
  - injection H as <- _ _ <-. simpl. lia.
  - cbn [collect] in H.
    destruct (__next__ fuel self w) as [[[[v|e1] s1] w1]|] eqn:Hn; [| |discriminate].
    + destruct (collect calls fuel s1 w1) as [[[[vs1 e2] s2] w2]|] eqn:Hc; [|discriminate].
      injection H as <- _ _ <-.
      pose proof (next_grows _ _ _ _ _ _ Hn). pose proof (IH _ _ _ _ _ _ _ Hc).
      simpl in *. lia.
    + injection H as <- _ _ <-. pose proof (next_grows _ _ _ _ _ _ Hn). simpl in *. lia.
Qed.

Lemma each_page_costs_a_request_witness :
  (List.length (requests (Sample.scripted [Return Sample.first_page; Return Sample.last_page]))
   + List.length [generic_of Sample.fresh Sample.first_page;
                  generic_of Sample.fresh Sample.last_page]
   <= List.length
        (requests (sent Sample.second "token"
                     (sent Sample.fresh "token"
                        (Sample.scripted [Return Sample.first_page;
                                          Return Sample.last_page])))))%nat.
Proof.
  apply (each_page_costs_a_request 3 1 Sample.fresh
           (Sample.scripted [Return Sample.first_page; Return Sample.last_page])
           _ (Some StopIteration)
           (set_finished true (set_total (Some 2) Sample.second))).
  vm_compute; reflexivity.
Defined.
